(** * The PriorityClass resource controller

    A shallow embedding of
    [kubernetes/resource_kubernetes_resource_priority_class.go]:
    the five controller entry points (Create, Read, Update, Delete,
    Exists) written as state-passing functions over

    - the resource data [d] they mutate through a pointer,
    - the object store they call through the client connection,
    - a log of the calls and identifier assignments they perform, and
    - a logical clock advanced by the convergence poller.

    Go's [interface{}] values are a tagged union, a one-result type
    assertion [x.(T)] aborts the call with a run-time panic when the
    dynamic type is not [T], and a function of result type [error]
    returns [None] for [nil]. *)

From stdpp Require Import base option list strings pretty sets.
From Stdlib Require Import ZArith Lia Ascii String.

Local Open Scope Z_scope.
Local Open Scope string_scope.
Local Set Warnings "-register-all".

(** ** Dynamic values *)

(** What a Go [interface{}] handed out by the resource data can hold.
    [VInt] is Go's [int], [VInt32] is [int32]; a map keeps its entries
    as a list of pairs, in the order of their keys.  A list of values is
    a value, as a Go slice is where an [interface{}] is expected. *)
Inductive value : Type :=
| VNil
| VInt (n : Z)
| VInt32 (n : Z)
| VBool (b : bool)
| VString (s : string)
| VList (l : list value)
| VMap (m : list (string * value)).

#[warning="-uniform-inheritance"] Coercion VList : list >-> value.

(** [reflect.DeepEqual] on dynamic values: equal dynamic types and equal
    contents. *)
Fixpoint value_eqb (a b : value) {struct a} : bool :=
  match a, b with
  | VNil, VNil => true
  | VInt x, VInt y => Z.eqb x y
  | VInt32 x, VInt32 y => Z.eqb x y
  | VBool x, VBool y => Bool.eqb x y
  | VString x, VString y => String.eqb x y
  | VList xs, VList ys =>
      (fix go (xs ys : list value) {struct xs} : bool :=
         match xs, ys with
         | [], [] => true
         | x :: xs', y :: ys' => value_eqb x y && go xs' ys'
         | _, _ => false
         end) xs ys
  | VMap xs, VMap ys =>
      (fix go (xs ys : list (string * value)) {struct xs} : bool :=
         match xs, ys with
         | [], [] => true
         | (k, x) :: xs', (k', y) :: ys' =>
             String.eqb k k' && value_eqb x y && go xs' ys'
         | _, _ => false
         end) xs ys
  | _, _ => false
  end.

(** The zero value of each dynamic type, as [GetOk] tests it. *)
Definition is_zero (v : value) : bool :=
  match v with
  | VNil => true
  | VInt n | VInt32 n => Z.eqb n 0
  | VBool b => negb b
  | VString s => String.eqb s ""
  | VList l => match l with [] => true | _ => false end
  | VMap m => match m with [] => true | _ => false end
  end.

(** ** Failures *)

(** Go [error] values the controller sees or builds.  [StatusError] is
    the API machinery's [*errors.StatusError] with its HTTP code;
    [OpaqueError] is any other error a collaborator returns; [Errorf] is
    [fmt.Errorf] with its format string and arguments kept apart. *)
Inductive error : Type :=
| StatusError (code : Z) (message : string)
| OpaqueError (message : string)
| Errorf (format : string) (args : list fmt_arg)
with fmt_arg : Type :=
| ArgError (e : error)
| ArgInt32 (n : Z).

(** A run-time panic: a failed type assertion names the asserted type
    and carries the value found; a collaborator may panic on its own. *)
Inductive panic : Type :=
| TypeAssertion (asserted : string) (found : value)
| HelperPanic (message : string).

(** The result of running a Go call: it returned, or it panicked. *)
Inductive outcome (A : Type) : Type :=
| Ret (a : A)
| Panic (p : panic).
Arguments Ret {A} a.
Arguments Panic {A} p.

(** One-result type assertions [v.(T)]. *)
Definition assert_list (v : value) : outcome (list value) :=
  match v with VList l => Ret l | _ => Panic (TypeAssertion "[]interface {}" v) end.
Definition assert_int32 (v : value) : outcome Z :=
  match v with VInt32 n => Ret n | _ => Panic (TypeAssertion "int32" v) end.
Definition assert_string (v : value) : outcome string :=
  match v with VString s => Ret s | _ => Panic (TypeAssertion "string" v) end.
Definition assert_bool (v : value) : outcome bool :=
  match v with VBool b => Ret b | _ => Panic (TypeAssertion "bool" v) end.

(** ** Remote objects *)

(** The identity block of a remote object ([meta_v1.ObjectMeta]). *)
Record ObjectMeta : Type := mkObjectMeta {
  Name : string;
  GenerateName : string;
  Namespace : string;
  Labels : list (string * string);
  Annotations : list (string * string);
  ResourceVersion : string;
  UID : string;
}.

Definition set_GenerateName (g : string) (m : ObjectMeta) : ObjectMeta :=
  {| Name := Name m; GenerateName := g; Namespace := Namespace m;
     Labels := Labels m; Annotations := Annotations m;
     ResourceVersion := ResourceVersion m; UID := UID m |}.

(** [api.PriorityClass]; [Value] is an [int32]. *)
Record PriorityClass : Type := mkPriorityClass {
  Meta : ObjectMeta;
  Value : Z;
  Description : string;
  GlobalDefault : bool;
}.

Definition set_Meta (m : ObjectMeta) (pc : PriorityClass) : PriorityClass :=
  {| Meta := m; Value := Value pc; Description := Description pc;
     GlobalDefault := GlobalDefault pc |}.

(** ** Patch documents *)

(** One operation of a JSON patch: kind, path, and value where the kind
    has one. *)
Inductive PatchOperation : Type :=
| ReplaceOperation (Path : string) (Val : value)
| AddOperation (Path : string) (Val : value)
| RemoveOperation (Path : string).

Definition PatchOperations : Type := list PatchOperation.

Definition op_path (o : PatchOperation) : string :=
  match o with
  | ReplaceOperation p _ | AddOperation p _ | RemoveOperation p => p
  end.

(** ** The resource data *)

(** Splitting a key such as ["metadata.0.generate_name"] at its dots. *)
Fixpoint split_key_from (seg key : string) : list string :=
  match key with
  | EmptyString => [seg]
  | String c rest =>
      if Ascii.eqb c "."%char then seg :: split_key_from "" rest
      else split_key_from (seg ++ String c "") rest
  end.
Definition split_key (key : string) : list string := split_key_from "" key.

(** A list index written in decimal. *)
Definition digit_of (c : ascii) : option nat :=
  let n := nat_of_ascii c in
  if (48 <=? n)%nat && (n <=? 57)%nat then Some (n - 48)%nat else None.
Fixpoint index_from (acc : nat) (s : string) : option nat :=
  match s with
  | EmptyString => Some acc
  | String c rest =>
      match digit_of c with
      | Some k => index_from (10 * acc + k)%nat rest
      | None => None
      end
  end.
Definition index_of (s : string) : option nat :=
  match s with EmptyString => None | _ => index_from 0%nat s end.

Fixpoint assoc {A : Type} (k : string) (m : list (string * A)) : option A :=
  match m with
  | [] => None
  | (k', x) :: m' => if String.eqb k k' then Some x else assoc k m'
  end.

(** Following the remaining segments of a key into a list or map value;
    a segment that leads nowhere reads as nil. *)
Fixpoint lookup_path (p : list string) (v : value) : value :=
  match p with
  | [] => v
  | seg :: p' =>
      match v with
      | VList l =>
          match index_of seg with
          | Some i => match l !! i with
                      | Some x => lookup_path p' x
                      | None => VNil
                      end
          | None => VNil
          end
      | VMap m =>
          match assoc seg m with
          | Some x => lookup_path p' x
          | None => VNil
          end
      | _ => VNil
      end
  end.

(** The schema of the resource (lines 28-47): metadata is a list block
    (its schema comes from the provider's [metadataSchema]), description
    and global_default are optional with a default, value is required. *)
Inductive ValueType : Type := TypeList | TypeString | TypeBool | TypeInt.

Record SchemaField : Type := mkSchemaField {
  FieldType : ValueType;
  Optional : bool;
  Required : bool;
  Default : option value;
}.

Definition Schema : list (string * SchemaField) :=
  [ ("metadata", mkSchemaField TypeList false true None);
    ("description", mkSchemaField TypeString true false (Some (VString "")));
    ("global_default", mkSchemaField TypeBool true false (Some (VBool false)));
    ("value", mkSchemaField TypeInt false true None) ].

(** The Go type in which the resource data holds a field of each
    schema type, and the decoding [d.Set] applies to what it is given: a
    [TypeInt] field is held as an [int], whatever integer type was
    written; a value of another kind is refused. *)
Definition decode (t : ValueType) (v : value) : option value :=
  match t, v with
  | TypeInt, VInt n | TypeInt, VInt32 n => Some (VInt n)
  | TypeString, VString s => Some (VString s)
  | TypeBool, VBool b => Some (VBool b)
  | TypeList, VList l => Some (VList l)
  | _, _ => None
  end.

(** One snapshot of the Flat Model: a field for each key of the schema,
    each held in the Go type of its schema type.  A field that was never
    set holds its default, which for these fields is the zero value. *)
Record FlatModel : Type := mkFlatModel {
  fm_metadata : list value;
  fm_value : Z;
  fm_description : string;
  fm_global_default : bool;
}.

(** What a snapshot holds under a top-level key, as a dynamic value. *)
Definition field (fm : FlatModel) (key : string) : option value :=
  if String.eqb key "metadata" then Some (VList (fm_metadata fm))
  else if String.eqb key "value" then Some (VInt (fm_value fm))
  else if String.eqb key "description" then Some (VString (fm_description fm))
  else if String.eqb key "global_default" then Some (VBool (fm_global_default fm))
  else None.

(** A decoded value put under a top-level key. *)
Definition with_field (key : string) (v : value) (fm : FlatModel) : option FlatModel :=
  if String.eqb key "metadata" then
    match v with
    | VList l => Some (mkFlatModel l (fm_value fm) (fm_description fm) (fm_global_default fm))
    | _ => None
    end
  else if String.eqb key "value" then
    match v with
    | VInt n => Some (mkFlatModel (fm_metadata fm) n (fm_description fm) (fm_global_default fm))
    | _ => None
    end
  else if String.eqb key "description" then
    match v with
    | VString s => Some (mkFlatModel (fm_metadata fm) (fm_value fm) s (fm_global_default fm))
    | _ => None
    end
  else if String.eqb key "global_default" then
    match v with
    | VBool b => Some (mkFlatModel (fm_metadata fm) (fm_value fm) (fm_description fm) b)
    | _ => None
    end
  else None.

(** [schema.ResourceData]: the Local ID, the prior snapshot of the Flat
    Model and the current one. *)
Record ResourceData : Type := mkResourceData {
  rd_id : string;
  rd_prior : FlatModel;
  rd_current : FlatModel;
}.

(** Reading a key from a snapshot: the top-level field, then the rest of
    the path; a key the schema does not declare reads as nil. *)
Definition read_key (fm : FlatModel) (key : string) : value :=
  match split_key key with
  | [] => VNil
  | top :: rest =>
      match field fm top with
      | Some v => lookup_path rest v
      | None => VNil
      end
  end.

(** [d.Get]: the key read from the current snapshot. *)
Definition Get (d : ResourceData) (key : string) : value := read_key (rd_current d) key.

(** [d.GetChange]: the key read from the prior and from the current
    snapshot. *)
Definition GetChange (d : ResourceData) (key : string) : value * value :=
  (read_key (rd_prior d) key, read_key (rd_current d) key).

(** [d.HasChange]: the two readings are not deeply equal. *)
Definition HasChange (d : ResourceData) (key : string) : bool :=
  let '(o, n) := GetChange d key in negb (value_eqb o n).

(** [d.GetOk]: the reading, and whether it is other than the zero
    value. *)
Definition GetOk (d : ResourceData) (key : string) : value * bool :=
  let v := Get d key in (v, negb (is_zero v)).

(** [d.Id] and [d.SetId]. *)
Definition Id (d : ResourceData) : string := rd_id d.

Definition SetId (id : string) (d : ResourceData) : ResourceData :=
  {| rd_id := id; rd_prior := rd_prior d; rd_current := rd_current d |}.

(** [d.Set]: the value is decoded to the schema type of the key and
    written to the current snapshot; a key the schema does not declare,
    and a value that does not decode, are refused with an error. *)
Definition Set_ (key : string) (v : value) (d : ResourceData) : option error * ResourceData :=
  match assoc key Schema with
  | Some f =>
      match decode (FieldType f) v with
      | Some v' =>
          match with_field key v' (rd_current d) with
          | Some fm =>
              (None, {| rd_id := rd_id d; rd_prior := rd_prior d; rd_current := fm |})
          | None => (Some (OpaqueError "Invalid address to set"), d)
          end
      | None => (Some (OpaqueError "field has an unexpected type"), d)
      end
  | None => (Some (OpaqueError "Invalid address to set"), d)
  end.

Arguments read_key : simpl never.
Arguments Get : simpl never.
Arguments GetChange : simpl never.
Arguments HasChange : simpl never.
Arguments GetOk : simpl never.
Arguments Set_ : simpl never.

(** ** State passing *)

(** A computation over a state [Σ]: it returns or panics, and leaves a
    state behind either way. *)
Definition St (Σ A : Type) : Type := Σ → outcome A * Σ.

Definition ret {Σ A} (a : A) : St Σ A := λ σ, (Ret a, σ).

Definition bind {Σ A B} (c : St Σ A) (k : A → St Σ B) : St Σ B :=
  λ σ, match c σ with
       | (Ret a, σ') => k a σ'
       | (Panic p, σ') => (Panic p, σ')
       end.

Definition liftO {Σ A} (o : outcome A) : St Σ A := λ σ, (o, σ).
Definition get {Σ} : St Σ Σ := λ σ, (Ret σ, σ).
Definition gets {Σ A} (f : Σ → A) : St Σ A := λ σ, (Ret (f σ), σ).

Notation "'do' x <- c ; k" := (bind c (λ x, k))
  (at level 10, x name, c at level 100, k at level 200).

Definition obind {A B} (o : outcome A) (k : A → outcome B) : outcome B :=
  match o with Ret a => k a | Panic p => Panic p end.

Notation "'val' x <- o ; k" := (obind o (λ x, k))
  (at level 10, x name, o at level 100, k at level 200).

(** ** Collaborators *)

(** What a store call hands back: the object, or an error. *)
Inductive result (A : Type) : Type :=
| Ok (a : A)
| Err (e : error).
Arguments Ok {A} a.
Arguments Err {A} e.

(** The object store behind [conn.Scheduling().PriorityClasses()]: each
    call answers from the store's state and may change it. *)
Class ObjectStore (S : Type) : Type := {
  store_Create : PriorityClass → S → result PriorityClass * S;
  store_Get : string → S → result PriorityClass * S;
  store_Patch : string → string → string → S → result PriorityClass * S;
  store_Delete : string → S → option error * S;
}.

(** The provider's shared routines this file calls but does not define:
    the metadata expander, flattener and patch builder, the Local ID
    builder and the patch marshaller. *)
Class Helpers : Type := {
  expandMetadata : list value → outcome ObjectMeta;
  flattenMetadata : ObjectMeta → ResourceData → outcome (list value);
  patchMetadata : string → string → ResourceData → outcome PatchOperations;
  buildId : ObjectMeta → string;
  MarshalJSON : PatchOperations → result string;
}.

(** Modelled from the spec: the bounded interval of the poller, the
    pause it takes between two reads, in milliseconds. *)
Class Poller : Type := { poll_interval : positive }.

(** [pkgApi.JSONPatchType]. *)
Definition JSONPatchType : string := "application/json-patch+json".

(** [time.Minute], in milliseconds. *)
Definition Minute : Z := 60000.

(** ** The world a controller call runs in *)

(** What the log records, oldest first: the store calls, the Local ID
    assignments, and the poller's pauses. *)
Inductive Event : Type :=
| CallCreate (pc : PriorityClass)
| CallGet (name : string)
| CallPatch (name pt data : string)
| CallDelete (name : string)
| DidSetId (id : string)
| Slept (ms : Z).

Definition is_store_call (e : Event) : bool :=
  match e with
  | CallCreate _ | CallGet _ | CallPatch _ _ _ | CallDelete _ => true
  | DidSetId _ | Slept _ => false
  end.

Definition store_calls (l : list Event) : list Event := filter (λ e, is_store_call e = true) l.

Record World (S : Type) : Type := mkWorld {
  w_d : ResourceData;
  w_store : S;
  w_log : list Event;
  w_now : Z;
}.
Arguments mkWorld {S} _ _ _ _.
Arguments w_d {S} _.
Arguments w_store {S} _.
Arguments w_log {S} _.
Arguments w_now {S} _.

Definition with_d {S} (d : ResourceData) (w : World S) : World S :=
  mkWorld d (w_store w) (w_log w) (w_now w).
Definition with_store {S} (s : S) (w : World S) : World S :=
  mkWorld (w_d w) s (w_log w) (w_now w).
Definition logged {S} (e : Event) (w : World S) : World S :=
  mkWorld (w_d w) (w_store w) (w_log w ++ [e])%list (w_now w).
Definition advanced {S} (ms : Z) (w : World S) : World S :=
  mkWorld (w_d w) (w_store w) (w_log w) (w_now w + ms).

(** Running a computation on the resource data inside a world. *)
Definition onD {S A} (c : St ResourceData A) : St (World S) A :=
  λ w, let '(r, d') := c (w_d w) in (r, with_d d' w).

Definition getD {S} : St (World S) ResourceData := gets w_d.
Definition clock {S} : St (World S) Z := gets w_now.
Definition sleep {S} (ms : Z) : St (World S) unit :=
  λ w, (Ret tt, advanced ms (logged (Slept ms) w)).
Definition doSetId {S} (id : string) : St (World S) unit :=
  λ w, (Ret tt, logged (DidSetId id) (with_d (SetId id (w_d w)) w)).
Definition doSet (key : string) (v : value) : St ResourceData (option error) :=
  λ d, let '(err, d') := Set_ key v d in (Ret err, d').

(** A store call: logged, answered by the store, the store's new state
    kept. *)
Definition call {S A} (e : Event) (f : S → A * S) : St (World S) A :=
  λ w, let '(r, s') := f (w_store w) in (Ret r, with_store s' (logged e w)).

(** ** The controller *)

(** The five entry points, statement by statement.  The connection
    [conn] is the object store of the world; the [log.Printf] lines have
    no effect on the result and are left out. *)

(** [resource.RetryError]: the error, and whether to try again. *)
Inductive RetryError : Type :=
| RetryableError (e : error)
| NonRetryableError (e : error).

Section Controller.
Context {S : Type} `{!ObjectStore S} `{!Helpers} `{!Poller}.

(** *** Convergence polling *)

(** Modelled from the spec: [resource.Retry], the convergence poller,
    which lives in the plugin SDK and not in this file.  It runs the
    check; success and a non-retryable error end the wait at once; a
    retryable error ends it with that error once the deadline has
    passed, and otherwise the poller pauses for one interval and checks
    again.  Time passes in the pauses only, and [polls] bounds their
    number. *)
Fixpoint retry_loop (polls : nat) (deadline : Z)
    (f : St (World S) (option RetryError)) : St (World S) (option error) :=
  do r <- f;
  match r with
  | None => ret None
  | Some (NonRetryableError e) => ret (Some e)
  | Some (RetryableError e) =>
      do t <- clock;
      if (deadline <=? t)%Z then ret (Some e)
      else match polls with
           | O => ret (Some e)
           | Datatypes.S polls' =>
               do _ <- sleep (Z.pos poll_interval);
               retry_loop polls' deadline f
           end
  end.

(** Modelled from the spec: the number of pauses that fit before the
    deadline is passed. *)
Definition max_polls (timeout : Z) : nat :=
  Datatypes.S (Z.to_nat (timeout / Z.pos poll_interval)).

(** Modelled from the spec: [resource.Retry] itself, the poller started
    at the present time with its deadline one [timeout] away. *)
Definition Retry (timeout : Z) (f : St (World S) (option RetryError))
    : St (World S) (option error) :=
  do t0 <- clock;
  retry_loop (max_polls timeout) (t0 + timeout) f.

(** *** Read (lines 93-134) *)

(** Lines 105-111: when the object read back has no generate_name and
    the resource data holds a non-zero one, the latter is put into the
    object. *)
Definition reinject_generate_name (priorityClass : PriorityClass) (d : ResourceData)
    : outcome PriorityClass :=
  if String.eqb (GenerateName (Meta priorityClass)) "" then
    let '(v, ok) := GetOk d "metadata.0.generate_name" in
    if ok then
      val g <- assert_string v;
      Ret (set_Meta (set_GenerateName g (Meta priorityClass)) priorityClass)
    else Ret priorityClass
  else Ret priorityClass.

(** Lines 105-133: the generate_name correction, then the four fields
    written back to the resource data. *)
Definition flatten (priorityClass : PriorityClass) : St ResourceData (option error) :=
  do d <- get;
  do priorityClass <- liftO (reinject_generate_name priorityClass d);
  do m <- liftO (flattenMetadata (Meta priorityClass) d);
  do err <- doSet "metadata" (VList m);
  match err with
  | Some e => ret (Some e)
  | None =>
  do err <- doSet "value" (VInt32 (Value priorityClass));
  match err with
  | Some e => ret (Some e)
  | None =>
  do err <- doSet "description" (VString (Description priorityClass));
  match err with
  | Some e => ret (Some e)
  | None =>
  do err <- doSet "global_default" (VBool (GlobalDefault priorityClass));
  match err with
  | Some e => ret (Some e)
  | None => ret None
  end end end end.

(** Lines 93-134: the object is read by Local ID; a store error is
    returned as it is, and the object is flattened otherwise. *)
Definition resourceKubernetesPriorityClassRead : St (World S) (option error) :=
  do name <- gets (λ w, Id (w_d w));
  do r <- call (CallGet name) (store_Get name);
  match r with
  | Err err => ret (Some err)
  | Ok priorityClass => onD (flatten priorityClass)
  end.

(** *** Create (lines 51-91) *)

(** Lines 54-64: the draft built from the resource data. *)
Definition expand (d : ResourceData) : outcome PriorityClass :=
  val l <- assert_list (Get d "metadata");
  val metadata <- expandMetadata l;
  val value <- assert_int32 (Get d "value");
  val description <- assert_string (Get d "description");
  val globalDefault <- assert_bool (Get d "global_default");
  Ret {| Meta := metadata; Description := description;
         GlobalDefault := globalDefault; Value := value |}.

(** Lines 75-84: one check of the poller. *)
Definition created_matches (out priorityClass : PriorityClass)
    : St (World S) (option RetryError) :=
  do r <- call (CallGet (Name (Meta out))) (store_Get (Name (Meta out)));
  match r with
  | Err err => ret (Some (NonRetryableError err))
  | Ok createdPriorityClass =>
      if (Value createdPriorityClass =? Value priorityClass)%Z then ret None
      else ret (Some (RetryableError
             (Errorf "Priority class doesn't match after creation.\nExpected: %#v\nGiven: %#v"
                [ArgInt32 (Value createdPriorityClass); ArgInt32 (Value priorityClass)])))
  end.

(** Lines 66-90: what Create does with the draft once it is built:
    create it in the store, set the Local ID, wait until the value read
    back is the one submitted, read. *)
Definition create_draft (priorityClass : PriorityClass) : St (World S) (option error) :=
  do r <- call (CallCreate priorityClass) (store_Create priorityClass);
  match r with
  | Err err => ret (Some (Errorf "Failed to create priority class: %s" [ArgError err]))
  | Ok out =>
      do _ <- doSetId (buildId (Meta out));
      do err <- Retry (1 * Minute) (created_matches out priorityClass);
      match err with
      | Some e => ret (Some e)
      | None => resourceKubernetesPriorityClassRead
      end
  end.

(** Lines 51-91: the draft is built from the resource data, and the
    rest is done with the draft. *)
Definition resourceKubernetesPriorityClassCreate : St (World S) (option error) :=
  do d <- getD;
  do priorityClass <- liftO (expand d);
  create_draft priorityClass.

(** *** Update (lines 136-179) *)

(** Lines 142-148. *)
Definition patch_value (d : ResourceData) (ops : PatchOperations) : outcome PatchOperations :=
  if HasChange d "value" then
    val value <- assert_int32 (Get d "value");
    Ret (ops ++ [ReplaceOperation "/value" (VInt32 value)])%list
  else Ret ops.

(** Lines 150-156. *)
Definition patch_description (d : ResourceData) (ops : PatchOperations)
    : outcome PatchOperations :=
  if HasChange d "description" then
    val description <- assert_string (Get d "description");
    Ret (ops ++ [ReplaceOperation "/description" (VString description)])%list
  else Ret ops.

(** Lines 158-164: the new value is asserted to be a string. *)
Definition patch_global_default (d : ResourceData) (ops : PatchOperations)
    : outcome PatchOperations :=
  if HasChange d "global_default" then
    val globalDefault <- assert_string (Get d "global_default");
    Ret (ops ++ [ReplaceOperation "/globalDefault" (VString globalDefault)])%list
  else Ret ops.

(** Lines 140-164: the operations of the patch, in the order the fields
    are visited. *)
Definition buildPatch (d : ResourceData) : outcome PatchOperations :=
  val ops <- patchMetadata "metadata.0." "/metadata/" d;
  val ops <- patch_value d ops;
  val ops <- patch_description d ops;
  val ops <- patch_global_default d ops;
  Ret ops.

(** Lines 136-179: build the operations, marshal them, patch the
    object in the store, set the Local ID from the answer, read. *)
Definition resourceKubernetesPriorityClassUpdate : St (World S) (option error) :=
  do d <- getD;
  let name := Id d in
  do ops <- liftO (buildPatch d);
  match MarshalJSON ops with
  | Err err => ret (Some (Errorf "Failed to marshal update operations: %s" [ArgError err]))
  | Ok data =>
      do r <- call (CallPatch name JSONPatchType data) (store_Patch name JSONPatchType data);
      match r with
      | Err err => ret (Some (Errorf "Failed to update priority class: %s" [ArgError err]))
      | Ok out =>
          do _ <- doSetId (buildId (Meta out));
          resourceKubernetesPriorityClassRead
      end
  end.

(** *** Delete (lines 181-195) *)

(** Lines 181-195: delete in the store; an error is returned as it is,
    and the Local ID is cleared otherwise. *)
Definition resourceKubernetesPriorityClassDelete : St (World S) (option error) :=
  do name <- gets (λ w, Id (w_d w));
  do err <- call (CallDelete name) (store_Delete name);
  match err with
  | Some e => ret (Some e)
  | None =>
      do _ <- doSetId "";
      ret None
  end.

(** *** Exists (lines 197-210) *)

(** Line 204: the error is a [*errors.StatusError] whose code is 404. *)
Definition is_not_found (err : error) : bool :=
  match err with
  | StatusError code _ => (code =? 404)%Z
  | _ => false
  end.

(** Lines 197-210. *)
Definition resourceKubernetesPriorityClassExists : St (World S) (bool * option error) :=
  do name <- gets (λ w, Id (w_d w));
  do r <- call (CallGet name) (store_Get name);
  match r with
  | Err err =>
      if is_not_found err then ret (false, None)
      else ret (true, Some err)
  | Ok _ => ret (true, None)
  end.

End Controller.

(** ** The shared routines, from their description *)

Module SpecHelpers.

(** Modelled from the spec: the assertion the metadata routines make on
    a map value. *)
Definition assert_map (v : value) : outcome (list (string * value)) :=
  match v with
  | VMap m => Ret m
  | _ => Panic (TypeAssertion "map[string]interface {}" v)
  end.

(** Modelled from the spec: a map of dynamic values read as the map of
    strings that labels and annotations are. *)
Fixpoint expandStringMap (m : list (string * value)) : outcome (list (string * string)) :=
  match m with
  | [] => Ret []
  | (k, v) :: m' =>
      val s <- assert_string v;
      val rest <- expandStringMap m';
      Ret ((k, s) :: rest)
  end.

(** Modelled from the spec: a map of strings as the Flat Model holds
    it. *)
Definition flattenStringMap (m : list (string * string)) : value :=
  VMap (map (λ kv, (fst kv, VString (snd kv))) m).

(** Modelled from the spec: one identity sub-field of the metadata
    block, empty when it is not set. *)
Definition string_field (k : string) (m : list (string * value)) : outcome string :=
  match assoc k m with
  | Some v => assert_string v
  | None => Ret ""
  end.

(** Modelled from the spec: the labels or annotations of the metadata
    block, empty when they are not set. *)
Definition map_field (k : string) (m : list (string * value)) : outcome (list (string * string)) :=
  match assoc k m with
  | Some v => val sm <- assert_map v; expandStringMap sm
  | None => Ret []
  end.

(** Modelled from the spec: [expandMetadata], the expanding half of the
    generic metadata sub-mapper (name, namespace, labels, annotations
    and the generate_name identity sub-field), defined elsewhere in the
    provider.  The fields the store assigns start empty. *)
Definition expandMetadata (l : list value) : outcome ObjectMeta :=
  match l with
  | [] => Ret (mkObjectMeta "" "" "" [] [] "" "")
  | first :: _ =>
      val m <- assert_map first;
      val annotations <- map_field "annotations" m;
      val labels <- map_field "labels" m;
      val generate_name <- string_field "generate_name" m;
      val name <- string_field "name" m;
      val namespace <- string_field "namespace" m;
      Ret (mkObjectMeta name generate_name namespace labels annotations "" "")
  end.

(** Modelled from the spec: [flattenMetadata], the flattening half of
    the metadata sub-mapper, defined elsewhere in the provider: one map
    holding the configured identity fields next to the ones the store
    assigned. *)
Definition flattenMetadata (meta : ObjectMeta) (d : ResourceData) : outcome (list value) :=
  Ret [VMap [ ("annotations", flattenStringMap (Annotations meta));
              ("generate_name", VString (GenerateName meta));
              ("labels", flattenStringMap (Labels meta));
              ("name", VString (Name meta));
              ("namespace", VString (Namespace meta));
              ("resource_version", VString (ResourceVersion meta));
              ("uid", VString (UID meta)) ]].

(** Modelled from the spec: one operation per key that was dropped. *)
Definition removed_keys (path : string) (old new : list (string * value)) : PatchOperations :=
  flat_map (λ kv, match assoc (fst kv) new with
                  | Some _ => []
                  | None => [RemoveOperation (path ++ "/" ++ fst kv)]
                  end) old.

(** Modelled from the spec: one operation per key that was added or
    given a new value. *)
Definition written_keys (path : string) (old new : list (string * value)) : PatchOperations :=
  flat_map (λ kv, match assoc (fst kv) old with
                  | None => [AddOperation (path ++ "/" ++ fst kv) (snd kv)]
                  | Some v =>
                      if value_eqb v (snd kv) then []
                      else [ReplaceOperation (path ++ "/" ++ fst kv) (snd kv)]
                  end) new.

(** Modelled from the spec: the operations that turn one map of labels
    or annotations into another, key by key. *)
Definition diffStringMap (path : string) (old new : list (string * value)) : PatchOperations :=
  (removed_keys path old new ++ written_keys path old new)%list.

(** Modelled from the spec: the operations for the labels, or for the
    annotations, when they have changed. *)
Definition patch_map (key path : string) (d : ResourceData) : outcome PatchOperations :=
  if HasChange d key then
    let '(o, n) := GetChange d key in
    val old <- assert_map o;
    val new <- assert_map n;
    Ret (diffStringMap path old new)
  else Ret [].

(** Modelled from the spec: [patchMetadata], the shared metadata-patch
    routine defined elsewhere in the provider: labels and annotations
    are compared key by key, and each changed key yields one operation
    of its own. *)
Definition patchMetadata (keyPrefix pathPrefix : string) (d : ResourceData)
    : outcome PatchOperations :=
  val annotations <- patch_map (keyPrefix ++ "annotations") (pathPrefix ++ "annotations") d;
  val labels <- patch_map (keyPrefix ++ "labels") (pathPrefix ++ "labels") d;
  Ret (annotations ++ labels)%list.

(** Modelled from the spec: [buildId], defined elsewhere in the
    provider: namespace and name, or the name alone for a kind that has
    no namespace. *)
Definition buildId (meta : ObjectMeta) : string :=
  if String.eqb (Namespace meta) "" then Name meta
  else Namespace meta ++ "/" ++ Name meta.

(** Modelled from the spec: the wire syntax of a patch document, its
    quotation mark first. *)
Definition quote : string := String (ascii_of_nat 34) "".

(** Modelled from the spec: a value in the wire syntax. *)
Fixpoint render (v : value) : string :=
  match v with
  | VNil => "null"
  | VInt n | VInt32 n => pretty n
  | VBool b => if b then "true" else "false"
  | VString s => quote ++ s ++ quote
  | VList l =>
      "[" ++ (fix go (l : list value) : string :=
                match l with
                | [] => ""
                | [x] => render x
                | x :: l' => render x ++ "," ++ go l'
                end) l ++ "]"
  | VMap m =>
      "{" ++ (fix go (m : list (string * value)) : string :=
                match m with
                | [] => ""
                | [(k, x)] => quote ++ k ++ quote ++ ":" ++ render x
                | (k, x) :: m' => quote ++ k ++ quote ++ ":" ++ render x ++ "," ++ go m'
                end) m ++ "}"
  end.

(** Modelled from the spec: one operation in the wire syntax. *)
Definition render_op (o : PatchOperation) : string :=
  match o with
  | ReplaceOperation p v =>
      render (VMap [("path", VString p); ("value", v); ("op", VString "replace")])
  | AddOperation p v =>
      render (VMap [("path", VString p); ("value", v); ("op", VString "add")])
  | RemoveOperation p =>
      render (VMap [("path", VString p); ("op", VString "remove")])
  end.

(** Modelled from the spec: the operations of a document put
    together. *)
Fixpoint join (sep : string) (l : list string) : string :=
  match l with
  | [] => ""
  | [x] => x
  | x :: l' => x ++ sep ++ join sep l'
  end.

(** Modelled from the spec: [MarshalJSON] of the patch operations,
    defined elsewhere in the provider: the document serialised to the
    wire patch syntax at the store boundary. *)
Definition MarshalJSON (ops : PatchOperations) : result string :=
  Ok ("[" ++ join "," (map render_op ops) ++ "]").

(** The shared routines as described. *)
#[export] Instance spec_helpers : Helpers :=
  Build_Helpers expandMetadata flattenMetadata patchMetadata buildId MarshalJSON.

End SpecHelpers.

(** ** A scripted store *)

Module Scripted.

(** A store that answers from a script: creation echoes the draft with a
    resource version and UID assigned (or fails), reads hand out the
    scripted answers in order and repeat the last one, patching and
    deleting give their one scripted answer. *)
Record Script : Type := mkScript {
  on_create : option error;
  on_get : list (result PriorityClass);
  on_patch : result PriorityClass;
  on_delete : option error;
}.

Definition assigned (pc : PriorityClass) : PriorityClass :=
  let m := Meta pc in
  set_Meta (mkObjectMeta (Name m) (GenerateName m) (Namespace m) (Labels m)
              (Annotations m) "1" "uid-1") pc.

Definition not_found : error := StatusError 404 "not found".

Definition script_Create (pc : PriorityClass) (s : Script) : result PriorityClass * Script :=
  match on_create s with
  | Some e => (Err e, s)
  | None => (Ok (assigned pc), s)
  end.

Definition script_Get (name : string) (s : Script) : result PriorityClass * Script :=
  match on_get s with
  | [] => (Err not_found, s)
  | [r] => (r, s)
  | r :: rest => (r, mkScript (on_create s) rest (on_patch s) (on_delete s))
  end.

Definition script_Patch (name pt data : string) (s : Script) : result PriorityClass * Script :=
  (on_patch s, s).

Definition script_Delete (name : string) (s : Script) : option error * Script :=
  (on_delete s, s).

#[export] Instance script_store : ObjectStore Script :=
  Build_ObjectStore Script script_Create script_Get script_Patch script_Delete.

(** A poller that pauses half a second between reads. *)
#[export] Instance half_second : Poller := Build_Poller 500%positive.

End Scripted.

(** ** Sample data *)

Module Samples.
Import SpecHelpers Scripted.

Definition high_metadata : list value :=
  [VMap [ ("annotations", VMap []);
          ("generate_name", VString "");
          ("labels", VMap [("tier", VString "gold")]);
          ("name", VString "high");
          ("namespace", VString "");
          ("resource_version", VString "");
          ("uid", VString "") ]].

Definition high_fields : FlatModel := mkFlatModel high_metadata 1000000 "" false.

(** Nothing differs between the two snapshots. *)
Definition d_same : ResourceData := mkResourceData "high" high_fields high_fields.

(** Only the value differs. *)
Definition d_value : ResourceData :=
  mkResourceData "high" high_fields (mkFlatModel high_metadata 900000 "" false).

(** Only the description differs. *)
Definition d_description : ResourceData :=
  mkResourceData "high" high_fields (mkFlatModel high_metadata 1000000 "batch jobs" false).

(** Only global_default differs. *)
Definition d_global : ResourceData :=
  mkResourceData "high" high_fields (mkFlatModel high_metadata 1000000 "" true).

(** A configuration that has no Local ID yet. *)
Definition d_int : ResourceData := mkResourceData "" high_fields high_fields.

(** A generate_name is configured. *)
Definition generated_metadata : list value :=
  [VMap [ ("annotations", VMap []);
          ("generate_name", VString "prio-");
          ("labels", VMap []);
          ("name", VString "prio-x7");
          ("namespace", VString "");
          ("resource_version", VString "1");
          ("uid", VString "uid-1") ]].

Definition d_generated : ResourceData :=
  let f := mkFlatModel generated_metadata 1000000 "" false in
  mkResourceData "prio-x7" f f.

(** A draft as lines 59-64 build one. *)
Definition high_draft : PriorityClass :=
  mkPriorityClass (mkObjectMeta "high" "" "" [("tier", "gold")] [] "" "") 1000000 "" false.

Definition high_object : PriorityClass :=
  mkPriorityClass (mkObjectMeta "high" "" "" [("tier", "gold")] [] "1" "uid-1")
    1000000 "" false.

Definition stale_object : PriorityClass :=
  mkPriorityClass (mkObjectMeta "high" "" "" [("tier", "gold")] [] "1" "uid-1")
    0 "" false.

(** The remote object as the store reports it: the generate_name is
    missing. *)
Definition generated_object : PriorityClass :=
  mkPriorityClass (mkObjectMeta "prio-x7" "" "" [] [] "1" "uid-1") 1000000 "" false.

Definition world (d : ResourceData) (s : Script) : World Script := mkWorld d s [] 0.

(** The object is there and up to date. *)
Definition present : Script := mkScript None [Ok high_object] (Ok high_object) None.
(** The object is gone. *)
Definition absent : Script := mkScript None [] (Err not_found) (Some not_found).
(** The store is unreachable. *)
Definition unreachable : Script :=
  mkScript (Some (OpaqueError "connection refused")) [Err (OpaqueError "connection refused")]
    (Err (OpaqueError "connection refused")) (Some (OpaqueError "connection refused")).
(** The store never shows the value that was written. *)
Definition lagging : Script := mkScript None [Ok stale_object] (Ok stale_object) None.
(** The store omits the generate_name on read. *)
Definition omitting : Script := mkScript None [Ok generated_object] (Ok generated_object) None.

(** The shared routines as described, but with a marshaller that
    fails. *)
Definition failing_marshal : Helpers :=
  Build_Helpers expandMetadata flattenMetadata patchMetadata buildId
    (λ _, Err (OpaqueError "json: unsupported value")).

(** An object that carries its generate_name. *)
Definition named_object : PriorityClass :=
  mkPriorityClass (mkObjectMeta "prio-x7" "prio-" "" [] [] "1" "uid-1") 1000000 "" false.

End Samples.

(** ** Vocabulary of the statements *)

(** Every field holds the dynamic type that Create extracts from it. *)
Definition well_typed (d : ResourceData) : bool :=
  match Get d "metadata", Get d "value", Get d "description", Get d "global_default" with
  | VList _, VInt32 _, VString _, VBool _ => true
  | _, _, _, _ => false
  end.

Definition schema_fields : list string := map fst Schema.

(** No schema field differs between the two snapshots. *)
Definition unchanged (d : ResourceData) : Prop :=
  ∀ f, f ∈ schema_fields → HasChange d f = false.

(** What the log holds after the poller and Read have run: reads and
    pauses only. *)
Definition polling_event (e : Event) : Prop :=
  match e with
  | CallGet _ | Slept _ => True
  | _ => False
  end.

(** How many store reads a stretch of the log holds. *)
Fixpoint reads (l : list Event) : nat :=
  match l with
  | [] => 0%nat
  | CallGet _ :: l' => Datatypes.S (reads l')
  | _ :: l' => reads l'
  end.

(** From [w] to [w'] only polling happened: the resource data is the
    same, and the log grew by reads and pauses, at most [budget] reads. *)
Definition polled {S} (budget : nat) (w w' : World S) : Prop :=
  w_d w' = w_d w ∧
  ∃ rest, w_log w' = (w_log w ++ rest)%list ∧
          Forall polling_event rest ∧ (reads rest ≤ budget)%nat.

(** The error the poller's check builds when the value read back is not
    the one submitted. *)
Definition mismatch (found submitted : Z) : error :=
  Errorf "Priority class doesn't match after creation.\nExpected: %#v\nGiven: %#v"
    [ArgInt32 found; ArgInt32 submitted].

(** The resource data after Read has written the four fields back. *)
Definition written_back (m : list value) (pc : PriorityClass) (d : ResourceData)
    : ResourceData :=
  {| rd_id := rd_id d; rd_prior := rd_prior d;
     rd_current := mkFlatModel m (Value pc) (Description pc) (GlobalDefault pc) |}.

(** ** Vocabulary of the further statements *)

(** The mutating store calls, told apart. *)
Definition is_create (e : Event) : bool :=
  match e with CallCreate _ => true | _ => false end.
Definition is_patch (e : Event) : bool :=
  match e with CallPatch _ _ _ => true | _ => false end.
Definition is_delete (e : Event) : bool :=
  match e with CallDelete _ => true | _ => false end.

(** How many events of a kind a stretch of the log holds. *)
Definition count_of (p : Event → bool) (l : list Event) : nat :=
  List.length (List.filter p l).

Definition is_replace (o : PatchOperation) : bool :=
  match o with ReplaceOperation _ _ => true | _ => false end.

(** The paths of the operations Update adds itself, in the order it
    visits the fields. *)
Definition scalar_paths : list string := ["/value"; "/description"; "/globalDefault"].

(** Two identity blocks that differ in the generate_name at most. *)
Definition same_but_generate_name (a b : ObjectMeta) : Prop :=
  Name a = Name b ∧ Namespace a = Namespace b ∧ Labels a = Labels b ∧
  Annotations a = Annotations b ∧ ResourceVersion a = ResourceVersion b ∧ UID a = UID b.

(** The dynamic types Update asserts on the fields it patches. *)
Definition holds_int32 (v : value) : bool :=
  match v with VInt32 _ => true | _ => false end.
Definition holds_string (v : value) : bool :=
  match v with VString _ => true | _ => false end.

(** * Properties *)

(** Unfolding the state-passing combinators, and nothing else. *)
Ltac run :=
  cbv beta iota delta [bind ret get gets liftO onD getD clock sleep doSetId doSet call
                       obind fst snd];
  cbn [w_d w_store w_log w_now with_d with_store logged advanced].

(** Reducing the world's projections after a case split. *)
Ltac tidy := cbn [w_d w_store w_log w_now with_d with_store logged advanced fst snd].

Section Properties.
Context {S : Type} `{!ObjectStore S} `{!Helpers} `{!Poller}.

Implicit Types (w : World S) (d : ResourceData) (pc : PriorityClass).

(** ** Snapshots that do not differ *)

Lemma value_eqb_refl : ∀ v, value_eqb v v = true.
Proof.
  fix IH 1. intros [| n | n | b | s | l | m]; cbn.
  - done.
  - apply Z.eqb_refl.
  - apply Z.eqb_refl.
  - by destruct b.
  - apply String.eqb_refl.
  - induction l as [|x l IHl]; [done|]. by rewrite (IH x), IHl.
  - induction m as [|[k x] m IHm]; [done|]. by rewrite String.eqb_refl, (IH x), IHm.
Qed.

(** [buildPatch(m, m)]: when the two snapshots are the same, no schema
    field differs. *)
Lemma same_snapshot_unchanged d : rd_prior d = rd_current d → unchanged d.
Proof.
  intros Heq f _. unfold HasChange, GetChange. rewrite Heq.
  by rewrite value_eqb_refl.
Qed.

(** ** Exists *)

(** C10: Exists reads the object by Local ID once and touches nothing
    else.  A 404 status error gives (false, nil); any other error is
    returned together with true; a successful read gives (true, nil). *)
Theorem Exists_maps_get_result w :
  let name := Id (w_d w) in
  (∀ msg s', store_Get name (w_store w) = (Err (StatusError 404 msg), s') →
     resourceKubernetesPriorityClassExists w
     = (Ret (false, None), with_store s' (logged (CallGet name) w))) ∧
  (∀ err s', store_Get name (w_store w) = (Err err, s') → is_not_found err = false →
     resourceKubernetesPriorityClassExists w
     = (Ret (true, Some err), with_store s' (logged (CallGet name) w))) ∧
  (∀ pc s', store_Get name (w_store w) = (Ok pc, s') →
     resourceKubernetesPriorityClassExists w
     = (Ret (true, None), with_store s' (logged (CallGet name) w))).
Proof.
  intros name. unfold resourceKubernetesPriorityClassExists. run. fold name.
  repeat split.
  - intros msg s' ->. reflexivity.
  - intros err s' -> Hnf. rewrite Hnf. reflexivity.
  - intros pc s' ->. reflexivity.
Qed.

(** ** Delete *)

(** C2, as the code has it: Delete hands back whatever error the store's
    Delete reports, a not-found one included, and then leaves the Local
    ID as it was; when the store's Delete succeeds, Delete succeeds and
    the Local ID is cleared. *)
Theorem Delete_returns_store_answer w :
  let name := Id (w_d w) in
  (∀ e s', store_Delete name (w_store w) = (Some e, s') →
     resourceKubernetesPriorityClassDelete w
     = (Ret (Some e), with_store s' (logged (CallDelete name) w))) ∧
  (∀ s', store_Delete name (w_store w) = (None, s') →
     ∃ w', resourceKubernetesPriorityClassDelete w = (Ret None, w') ∧
           Id (w_d w') = "" ∧
           w_log w' = (w_log w ++ [CallDelete name; DidSetId ""])%list).
Proof.
  intros name. unfold resourceKubernetesPriorityClassDelete. run. fold name.
  split.
  - intros e s' ->. reflexivity.
  - intros s' ->. eexists. split; [reflexivity|].
    split; [reflexivity|]. cbn. by rewrite <- app_assoc.
Qed.

(** ** Create: the expand step *)

Lemma Create_panics w p :
  expand (w_d w) = Panic p → resourceKubernetesPriorityClassCreate w = (Panic p, w).
Proof. intros Hp. unfold resourceKubernetesPriorityClassCreate. run. by rewrite Hp. Qed.

(** C3: when a field of the Flat Model does not hold the dynamic type
    Create extracts from it (metadata a list, value an int32, description
    a string, global_default a bool), the expand step fails, Create ends
    with that failure, and the world is as it was: no store call was
    attempted.  The failure is the run-time panic of the type assertion,
    the form a validation error takes in this code. *)
Theorem Create_rejects_malformed w :
  well_typed (w_d w) = false →
  ∃ p, expand (w_d w) = Panic p ∧ resourceKubernetesPriorityClassCreate w = (Panic p, w).
Proof.
  intros Hbad.
  assert (∃ p, expand (w_d w) = Panic p) as [p Hp].
  { revert Hbad. unfold well_typed, expand.
    destruct (Get (w_d w) "metadata"); cbn;
      try (intros _; eexists; reflexivity).
    destruct (expandMetadata l); cbn; [|intros _; eexists; reflexivity].
    destruct (Get (w_d w) "value"); cbn;
      try (intros _; eexists; reflexivity).
    destruct (Get (w_d w) "description"); cbn;
      try (intros _; eexists; reflexivity).
    destruct (Get (w_d w) "global_default"); cbn;
      try (intros _; eexists; reflexivity).
    discriminate. }
  exists p. split; [done|]. by apply Create_panics.
Qed.

(** ** Update: the patch *)

Lemma Update_panics w p :
  buildPatch (w_d w) = Panic p → resourceKubernetesPriorityClassUpdate w = (Panic p, w).
Proof. intros Hp. unfold resourceKubernetesPriorityClassUpdate. run. by rewrite Hp. Qed.

(** C4, as the code has it: when global_default has changed and its new
    value is a boolean, the string assertion on it fails; that failure
    is not dropped: the step panics, Update ends with a panic, and the
    world is as it was (no patch is marshalled, no store call is made).
    When the steps before it went through, the panic is the failed
    string assertion on the boolean. *)
Theorem Update_global_default_mismatch_panics w b :
  HasChange (w_d w) "global_default" = true →
  Get (w_d w) "global_default" = VBool b →
  (∀ ops, patch_global_default (w_d w) ops = Panic (TypeAssertion "string" (VBool b))) ∧
  ∃ p, resourceKubernetesPriorityClassUpdate w = (Panic p, w) ∧
       (∀ ops, (val o1 <- patchMetadata "metadata.0." "/metadata/" (w_d w);
                val o2 <- patch_value (w_d w) o1;
                patch_description (w_d w) o2) = Ret ops →
               p = TypeAssertion "string" (VBool b)).
Proof.
  intros Hch Hget.
  assert (∀ ops, patch_global_default (w_d w) ops = Panic (TypeAssertion "string" (VBool b)))
    as Hstep.
  { intros ops. unfold patch_global_default. rewrite Hch, Hget. reflexivity. }
  split; [done|].
  assert (∃ p, buildPatch (w_d w) = Panic p ∧
               (∀ ops, (val o1 <- patchMetadata "metadata.0." "/metadata/" (w_d w);
                        val o2 <- patch_value (w_d w) o1;
                        patch_description (w_d w) o2) = Ret ops →
                       p = TypeAssertion "string" (VBool b))) as (p & Hp & Hwhich).
  { unfold buildPatch.
    destruct (patchMetadata "metadata.0." "/metadata/" (w_d w)) as [o1|p1]; cbn;
      [|exists p1; split; [done|discriminate]].
    destruct (patch_value (w_d w) o1) as [o2|p2]; cbn;
      [|exists p2; split; [done|discriminate]].
    destruct (patch_description (w_d w) o2) as [o3|p3]; cbn;
      [|exists p3; split; [done|discriminate]].
    rewrite Hstep. cbn. eexists. split; [reflexivity|done]. }
  exists p. split; [by apply Update_panics|done].
Qed.

(** ** Read *)

Lemma Set_metadata (l : list value) d :
  Set_ "metadata" (VList l) d
  = (None, mkResourceData (rd_id d) (rd_prior d)
             (mkFlatModel l (fm_value (rd_current d)) (fm_description (rd_current d))
                (fm_global_default (rd_current d)))).
Proof. reflexivity. Qed.
Lemma Set_value n d :
  Set_ "value" (VInt32 n) d
  = (None, mkResourceData (rd_id d) (rd_prior d)
             (mkFlatModel (fm_metadata (rd_current d)) n (fm_description (rd_current d))
                (fm_global_default (rd_current d)))).
Proof. reflexivity. Qed.
Lemma Set_description s d :
  Set_ "description" (VString s) d
  = (None, mkResourceData (rd_id d) (rd_prior d)
             (mkFlatModel (fm_metadata (rd_current d)) (fm_value (rd_current d)) s
                (fm_global_default (rd_current d)))).
Proof. reflexivity. Qed.
Lemma Set_global_default b d :
  Set_ "global_default" (VBool b) d
  = (None, mkResourceData (rd_id d) (rd_prior d)
             (mkFlatModel (fm_metadata (rd_current d)) (fm_value (rd_current d))
                (fm_description (rd_current d)) b)).
Proof. reflexivity. Qed.

(** What [flatten] comes to: it fails where the correction or the
    metadata flattener fails, leaving the resource data alone, and
    otherwise writes the four fields and returns no error. *)
Lemma flatten_unfold pc d :
  flatten pc d =
  match reinject_generate_name pc d with
  | Panic p => (Panic p, d)
  | Ret pc' =>
      match flattenMetadata (Meta pc') d with
      | Panic p => (Panic p, d)
      | Ret m => (Ret None, written_back m pc' d)
      end
  end.
Proof.
  unfold flatten. run.
  destruct (reinject_generate_name pc d) as [pc'|p]; [|done].
  destruct (flattenMetadata (Meta pc') d) as [m|p]; [|done].
  rewrite Set_metadata, Set_value, Set_description, Set_global_default.
  reflexivity.
Qed.

Lemma flatten_id pc d : Id (flatten pc d).2 = Id d.
Proof.
  rewrite flatten_unfold.
  destruct (reinject_generate_name pc d) as [pc'|p]; [|done].
  by destruct (flattenMetadata (Meta pc') d).
Qed.

(** Read performs one store call, the read by Local ID, and keeps the
    Local ID. *)
Lemma Read_log w :
  w_log (resourceKubernetesPriorityClassRead w).2 = (w_log w ++ [CallGet (Id (w_d w))])%list.
Proof.
  unfold resourceKubernetesPriorityClassRead. run.
  destruct (store_Get (Id (w_d w)) (w_store w)) as [[pc|e] s']; tidy; [|done].
  by destruct (flatten pc (w_d w)).
Qed.

Lemma Read_id w : Id (w_d (resourceKubernetesPriorityClassRead w).2) = Id (w_d w).
Proof.
  unfold resourceKubernetesPriorityClassRead. run.
  destruct (store_Get (Id (w_d w)) (w_store w)) as [[pc|e] s']; tidy; [|done].
  pose proof (flatten_id pc (w_d w)) as Hid.
  by destruct (flatten pc (w_d w)).
Qed.

(** C1, as the code has it: when no schema field differs (and the
    metadata routine accordingly has nothing to add), the Patch Document
    is empty, and Update still sends it: the first thing it does is call
    the store's Patch with the marshalled empty document; when that call
    succeeds it sets the Local ID and performs Read, which calls the
    store's Get. *)
Theorem Update_sends_empty_patch w data :
  unchanged (w_d w) →
  patchMetadata "metadata.0." "/metadata/" (w_d w) = Ret [] →
  MarshalJSON [] = Ok data →
  let name := Id (w_d w) in
  buildPatch (w_d w) = Ret [] ∧
  (∀ e s', store_Patch name JSONPatchType data (w_store w) = (Err e, s') →
     ∃ r w', resourceKubernetesPriorityClassUpdate w = (r, w') ∧
             w_log w' = (w_log w ++ [CallPatch name JSONPatchType data])%list) ∧
  (∀ out s', store_Patch name JSONPatchType data (w_store w) = (Ok out, s') →
     ∃ r w', resourceKubernetesPriorityClassUpdate w = (r, w') ∧
             w_log w' = (w_log w ++ [CallPatch name JSONPatchType data;
                                     DidSetId (buildId (Meta out));
                                     CallGet (buildId (Meta out))])%list).
Proof.
  intros Hun Hm Hj name.
  assert (buildPatch (w_d w) = Ret []) as Hops.
  { unfold buildPatch, patch_value, patch_description, patch_global_default.
    rewrite Hm. cbn.
    rewrite !Hun by (unfold schema_fields; cbn; set_solver). reflexivity. }
  split; [done|].
  unfold resourceKubernetesPriorityClassUpdate. run. rewrite Hops, Hj. fold name.
  split.
  - intros e s' ->. eexists _, _. split; [reflexivity|done].
  - intros out s' ->.
    match goal with
    | |- context [resourceKubernetesPriorityClassRead ?w0] =>
        pose proof (Read_log w0) as Hlog;
        destruct (resourceKubernetesPriorityClassRead w0) as [r w'] eqn:Hread
    end.
    exists r, w'. split; [done|].
    cbn in Hlog. rewrite Hlog. by rewrite <- !app_assoc.
Qed.

(** ** What is read from the resource data *)

Lemma read_key_split fm k top rest :
  split_key k = top :: rest →
  read_key fm k =
  match field fm top with
  | Some v => lookup_path rest v
  | None => VNil
  end.
Proof. unfold read_key. by intros ->. Qed.

(** A key below metadata reads from what the metadata key reads. *)
Lemma Get_below_metadata d k seg rest :
  split_key k = "metadata" :: seg :: rest →
  Get d k = lookup_path (seg :: rest) (Get d "metadata").
Proof.
  intros Hk. unfold Get.
  by rewrite (read_key_split _ k _ _ Hk), (read_key_split _ "metadata" "metadata" [] eq_refl).
Qed.

(** What the resource data hands out for each field: the Go type of the
    field's schema type. *)
Lemma Get_metadata d : Get d "metadata" = VList (fm_metadata (rd_current d)).
Proof. reflexivity. Qed.
Lemma Get_value d : Get d "value" = VInt (fm_value (rd_current d)).
Proof. reflexivity. Qed.
Lemma Get_description d : Get d "description" = VString (fm_description (rd_current d)).
Proof. reflexivity. Qed.
Lemma Get_global_default d :
  Get d "global_default" = VBool (fm_global_default (rd_current d)).
Proof. reflexivity. Qed.

(** What Read has written is what is read afterwards. *)
Lemma Get_written_back_metadata m pc d : Get (written_back m pc d) "metadata" = m.
Proof. reflexivity. Qed.
Lemma Get_written_back_value m pc d : Get (written_back m pc d) "value" = VInt (Value pc).
Proof. reflexivity. Qed.
Lemma Get_written_back_description m pc d :
  Get (written_back m pc d) "description" = VString (Description pc).
Proof. reflexivity. Qed.
Lemma Get_written_back_global_default m pc d :
  Get (written_back m pc d) "global_default" = VBool (GlobalDefault pc).
Proof. reflexivity. Qed.

(** The correction touches the identity block only. *)
Lemma reinject_generate_name_Ret pc d pc' :
  reinject_generate_name pc d = Ret pc' →
  Value pc' = Value pc ∧ Description pc' = Description pc ∧
  GlobalDefault pc' = GlobalDefault pc.
Proof.
  unfold reinject_generate_name.
  destruct (String.eqb _ _); [|by intros [= <-]].
  destruct (GetOk d "metadata.0.generate_name") as [v [|]]; [|by intros [= <-]].
  destruct (assert_string v); cbn; [|discriminate]. by intros [= <-].
Qed.

(** C9: when the object read back has an empty generate_name and the
    resource data holds a non-empty one, Read puts the latter into the
    object before flattening: the metadata flattener is run on the object
    with the generate_name put back, its result is what Read stores under
    metadata, and (the flattener recording a non-empty generate_name of
    the object it is given) the generate_name read from the resource
    data after Read is the one it held before. *)
Theorem Read_reinjects_generate_name w pc s' g :
  store_Get (Id (w_d w)) (w_store w) = (Ok pc, s') →
  GenerateName (Meta pc) = "" →
  Get (w_d w) "metadata.0.generate_name" = VString g →
  g ≠ "" →
  (∀ meta, GenerateName meta ≠ "" →
           ∃ v, flattenMetadata meta (w_d w) = Ret v ∧
                lookup_path ["0"; "generate_name"] v = VString (GenerateName meta)) →
  reinject_generate_name pc (w_d w) = Ret (set_Meta (set_GenerateName g (Meta pc)) pc) ∧
  ∃ v w', flattenMetadata (set_GenerateName g (Meta pc)) (w_d w) = Ret v ∧
          resourceKubernetesPriorityClassRead w = (Ret None, w') ∧
          Get (w_d w') "metadata" = v ∧
          Get (w_d w') "metadata.0.generate_name" = Get (w_d w) "metadata.0.generate_name".
Proof.
  intros Hget Hempty Hg Hne Hflat.
  assert (reinject_generate_name pc (w_d w)
          = Ret (set_Meta (set_GenerateName g (Meta pc)) pc)) as Hre.
  { unfold reinject_generate_name, GetOk. rewrite Hempty, Hg. cbn.
    by apply String.eqb_neq in Hne as ->. }
  split; [done|].
  destruct (Hflat (set_GenerateName g (Meta pc)) Hne) as (v & Hv & Hrec).
  exists v. eexists. split; [done|].
  unfold resourceKubernetesPriorityClassRead. run. rewrite Hget. tidy.
  rewrite flatten_unfold, Hre. cbn [Meta set_Meta]. rewrite Hv.
  split; [reflexivity|]. tidy.
  split; [apply Get_written_back_metadata|].
  rewrite (Get_below_metadata _ "metadata.0.generate_name" "0" ["generate_name"] eq_refl).
  by rewrite Get_written_back_metadata, Hrec, Hg.
Qed.

(** ** The convergence poller *)

Lemma reads_app l1 l2 : reads (l1 ++ l2) = (reads l1 + reads l2)%nat.
Proof. induction l1 as [|[] l1 IH]; cbn; by rewrite ?IH. Qed.

Lemma polled_trans a b w1 w2 w3 :
  polled a w1 w2 → polled b w2 w3 → polled (a + b) w1 w3.
Proof.
  intros (Hd1 & r1 & Hl1 & Hp1 & Hr1) (Hd2 & r2 & Hl2 & Hp2 & Hr2).
  split; [congruence|]. exists (r1 ++ r2)%list.
  split; [by rewrite Hl2, Hl1, app_assoc|].
  split; [by apply Forall_app|]. rewrite reads_app. lia.
Qed.

Lemma polled_weaken a b w w' : (a ≤ b)%nat → polled a w w' → polled b w w'.
Proof. intros Hab (Hd & r & Hl & Hp & Hr). split; [done|]. exists r. repeat split; [done..|lia]. Qed.

(** One read of the poller's check. *)
Lemma polled_read name s' w : polled 1 w (with_store s' (logged (CallGet name) w)).
Proof.
  split; [done|]. exists [CallGet name]. repeat split; [|cbn; lia].
  by apply Forall_singleton.
Qed.

(** One pause of the poller. *)
Lemma polled_sleep ms w : polled 0 w (advanced ms (logged (Slept ms) w)).
Proof.
  split; [done|]. exists [Slept ms]. repeat split; [|cbn; lia].
  by apply Forall_singleton.
Qed.

Lemma created_matches_unfold out pc w :
  created_matches out pc w =
  match store_Get (Name (Meta out)) (w_store w) with
  | (Err e, s') =>
      (Ret (Some (NonRetryableError e)), with_store s' (logged (CallGet (Name (Meta out))) w))
  | (Ok c, s') =>
      (Ret (if (Value c =? Value pc)%Z then None
            else Some (RetryableError (mismatch (Value c) (Value pc)))),
       with_store s' (logged (CallGet (Name (Meta out))) w))
  end.
Proof.
  unfold created_matches. run.
  destruct (store_Get _ _) as [[c|e] s']; [|done]. tidy. by destruct (_ =? _)%Z.
Qed.

Lemma retry_loop_unfold n dl f w :
  retry_loop n dl f w =
  match f w with
  | (Panic p, w1) => (Panic p, w1)
  | (Ret None, w1) => (Ret None, w1)
  | (Ret (Some (NonRetryableError e)), w1) => (Ret (Some e), w1)
  | (Ret (Some (RetryableError e)), w1) =>
      if (dl <=? w_now w1)%Z then (Ret (Some e), w1)
      else match n with
           | O => (Ret (Some e), w1)
           | Datatypes.S n' =>
               retry_loop n' dl f
                 (advanced (Z.pos poll_interval) (logged (Slept (Z.pos poll_interval)) w1))
           end
  end.
Proof.
  destruct n; cbn [retry_loop]; run;
    destruct (f w) as [[[[e|e]|]|p] w1]; try done; by destruct (_ <=? _)%Z.
Qed.

(** Whatever the store answers, the poller only reads and pauses, and it
    reads at most once more than it may pause. *)
Lemma retry_loop_polled out pc n :
  ∀ dl w, polled (Datatypes.S n) w (retry_loop n dl (created_matches out pc) w).2.
Proof.
  induction n as [|n IH]; intros dl w;
    rewrite retry_loop_unfold, created_matches_unfold;
    destruct (store_Get _ _) as [[c|e] s'];
    try (apply (polled_weaken 1); [lia|apply polled_read]).
  - destruct (_ =? _)%Z; [apply polled_read|].
    destruct (_ <=? _)%Z; apply polled_read.
  - destruct (_ =? _)%Z; [apply (polled_weaken 1); [lia|apply polled_read]|].
    destruct (_ <=? _)%Z; [apply (polled_weaken 1); [lia|apply polled_read]|].
    apply (polled_weaken (1 + (0 + Datatypes.S n))); [lia|].
    eapply polled_trans; [apply polled_read|].
    eapply polled_trans; [apply polled_sleep|apply IH].
Qed.

Lemma Retry_polled out pc timeout w :
  polled (Datatypes.S (max_polls timeout)) w (Retry timeout (created_matches out pc) w).2.
Proof. unfold Retry. run. apply retry_loop_polled. Qed.

(** A check that never succeeds runs into the deadline, and the poller
    then stops within one interval of it. *)
Lemma retry_loop_times_out out pc (Inv : S → Prop) :
  (∀ s, Inv s → ∃ c s', store_Get (Name (Meta out)) s = (Ok c, s') ∧
                        Value c ≠ Value pc ∧ Inv s') →
  ∀ n dl w,
    Inv (w_store w) →
    (w_now w < dl + Z.pos poll_interval)%Z →
    (dl - w_now w ≤ Z.of_nat n * Z.pos poll_interval)%Z →
    ∃ c w', retry_loop n dl (created_matches out pc) w
            = (Ret (Some (mismatch (Value c) (Value pc))), w') ∧
            (dl ≤ w_now w' < dl + Z.pos poll_interval)%Z.
Proof.
  intros Hstep. induction n as [|n IH]; intros dl w HInv Hlt Hfuel;
    rewrite retry_loop_unfold, created_matches_unfold;
    destruct (Hstep _ HInv) as (c & s' & -> & Hne & HInv');
    apply Z.eqb_neq in Hne as ->; tidy;
    destruct (Z.leb_spec dl (w_now w)).
  - exists c. eexists. split; [reflexivity|]. tidy. lia.
  - lia.
  - exists c. eexists. split; [reflexivity|]. tidy. lia.
  - apply IH; tidy; [done|lia|].
    rewrite Nat2Z.inj_succ, Z.mul_succ_l in Hfuel. lia.
Qed.

(** C8: the poller as Create runs it.  When the value read back never
    is the one submitted, the poller returns the last mismatch as its
    error, no earlier than the timeout and less than one poll interval
    after it, having done nothing but reads and pauses, with a bounded
    number of reads.  A store error on a read ends the wait at once with
    that error.  A mismatch before the deadline is followed by one pause
    and another check. *)
Theorem Retry_times_out_or_aborts w out pc (Inv : S → Prop) timeout :
  let name := Name (Meta out) in
  let check := created_matches out pc in
  ((0 ≤ timeout)%Z →
   Inv (w_store w) →
   (∀ s, Inv s → ∃ c s', store_Get name s = (Ok c, s') ∧ Value c ≠ Value pc ∧ Inv s') →
   ∃ c w', Retry timeout check w = (Ret (Some (mismatch (Value c) (Value pc))), w') ∧
           (w_now w + timeout ≤ w_now w' < w_now w + timeout + Z.pos poll_interval)%Z ∧
           polled (Datatypes.S (max_polls timeout)) w w') ∧
  (∀ e s', store_Get name (w_store w) = (Err e, s') →
     ∀ n dl, retry_loop n dl check w
             = (Ret (Some e), with_store s' (logged (CallGet name) w))) ∧
  (∀ c s', store_Get name (w_store w) = (Ok c, s') → Value c ≠ Value pc →
     ∀ n dl, (w_now w < dl)%Z →
       retry_loop (Datatypes.S n) dl check w
       = retry_loop n dl check
           (advanced (Z.pos poll_interval)
              (logged (Slept (Z.pos poll_interval))
                 (with_store s' (logged (CallGet name) w))))).
Proof.
  intros name check. subst name check. split; [|split].
  - intros Hto HInv Hstep.
    pose proof (Retry_polled out pc timeout w) as Hpolled.
    unfold Retry in *. revert Hpolled. run. intros Hpolled.
    destruct (retry_loop_times_out out pc Inv Hstep (max_polls timeout)
                (w_now w + timeout)%Z w HInv) as (c & w' & Heq & Hnow).
    + lia.
    + unfold max_polls. rewrite Nat2Z.inj_succ, Z2Nat.id by (apply Z.div_pos; lia).
      pose proof (Z.mod_pos_bound timeout (Z.pos poll_interval) ltac:(lia)).
      pose proof (Z.div_mod timeout (Z.pos poll_interval) ltac:(lia)).
      nia.
    + exists c, w'. rewrite Heq in Hpolled |- *.
      split; [done|]. split; [lia|done].
  - intros e s' Hget n dl.
    by rewrite retry_loop_unfold, created_matches_unfold, Hget.
  - intros c s' Hget Hne n dl Hdl.
    rewrite retry_loop_unfold, created_matches_unfold, Hget.
    apply Z.eqb_neq in Hne as ->. tidy.
    destruct (Z.leb_spec dl (w_now w)); [lia|done].
Qed.

(** ** Create: the Local ID *)

Lemma create_draft_unfold pc w :
  create_draft pc w =
  match store_Create pc (w_store w) with
  | (Err err, s') =>
      (Ret (Some (Errorf "Failed to create priority class: %s" [ArgError err])),
       with_store s' (logged (CallCreate pc) w))
  | (Ok out, s') =>
      match Retry (1 * Minute) (created_matches out pc)
              (logged (DidSetId (buildId (Meta out)))
                 (with_d (SetId (buildId (Meta out)) (w_d w))
                    (with_store s' (logged (CallCreate pc) w)))) with
      | (Panic p, w1) => (Panic p, w1)
      | (Ret (Some e), w1) => (Ret (Some e), w1)
      | (Ret None, w1) => resourceKubernetesPriorityClassRead w1
      end
  end.
Proof.
  unfold create_draft. run.
  destruct (store_Create pc (w_store w)) as [[out|err] s']; [|done]. tidy.
  by destruct (Retry _ _ _) as [[[e|]|p] w1].
Qed.

(** Create is the expand step followed by the rest on the draft. *)
Lemma Create_is_expand_then_draft w :
  resourceKubernetesPriorityClassCreate w =
  match expand (w_d w) with
  | Panic p => (Panic p, w)
  | Ret pc => create_draft pc w
  end.
Proof.
  unfold resourceKubernetesPriorityClassCreate. run.
  by destruct (expand (w_d w)).
Qed.

Lemma Create_unfold w :
  resourceKubernetesPriorityClassCreate w =
  match expand (w_d w) with
  | Panic p => (Panic p, w)
  | Ret pc =>
      match store_Create pc (w_store w) with
      | (Err err, s') =>
          (Ret (Some (Errorf "Failed to create priority class: %s" [ArgError err])),
           with_store s' (logged (CallCreate pc) w))
      | (Ok out, s') =>
          match Retry (1 * Minute) (created_matches out pc)
                  (logged (DidSetId (buildId (Meta out)))
                     (with_d (SetId (buildId (Meta out)) (w_d w))
                        (with_store s' (logged (CallCreate pc) w)))) with
          | (Panic p, w1) => (Panic p, w1)
          | (Ret (Some e), w1) => (Ret (Some e), w1)
          | (Ret None, w1) => resourceKubernetesPriorityClassRead w1
          end
      end
  end.
Proof.
  rewrite Create_is_expand_then_draft.
  destruct (expand (w_d w)) as [pc|p]; [|done]. apply create_draft_unfold.
Qed.


(** ** Create and Update on the value *)

(** C5, where the code falls short of it: the value is held as an
    [int], and line 55 asserts an [int32].  So the expand step returns
    no object for any Flat Model, and there is nothing to flatten back:
    Create ends with a panic and the world as it was, and where the
    metadata expands that panic is the failed assertion on the value. *)
Theorem expand_fails_on_every_flat_model w :
  (∀ pc, expand (w_d w) ≠ Ret pc) ∧
  (∃ p, expand (w_d w) = Panic p ∧
        resourceKubernetesPriorityClassCreate w = (Panic p, w)) ∧
  (∀ md, expandMetadata (fm_metadata (rd_current (w_d w))) = Ret md →
     expand (w_d w)
     = Panic (TypeAssertion "int32" (VInt (fm_value (rd_current (w_d w)))))).
Proof.
  assert (∃ p, expand (w_d w) = Panic p ∧
               (∀ md, expandMetadata (fm_metadata (rd_current (w_d w))) = Ret md →
                  p = TypeAssertion "int32" (VInt (fm_value (rd_current (w_d w))))))
    as (p & Hp & Hwhich).
  { unfold expand. rewrite Get_metadata, Get_value. cbn.
    destruct (expandMetadata _) as [md|p]; cbn.
    - eexists. split; [reflexivity|done].
    - exists p. split; [done|discriminate]. }
  split; [intros pc; by rewrite Hp|]. split.
  - exists p. split; [done|]. by apply Create_panics.
  - intros md Hmd. by rewrite Hp, (Hwhich md Hmd).
Qed.

(** C6, where the code falls short of it: when the value has changed,
    line 143 asserts an [int32] on the [int] the resource data holds, so
    no Patch Document is built: the patch step panics on the value, and
    Update ends with that panic and the world as it was, without a store
    call. *)
Theorem Update_changed_value_panics w mops :
  patchMetadata "metadata.0." "/metadata/" (w_d w) = Ret mops →
  HasChange (w_d w) "value" = true →
  buildPatch (w_d w) = Panic (TypeAssertion "int32" (Get (w_d w) "value")) ∧
  resourceKubernetesPriorityClassUpdate w
  = (Panic (TypeAssertion "int32" (Get (w_d w) "value")), w).
Proof.
  intros Hm Hch.
  assert (buildPatch (w_d w) = Panic (TypeAssertion "int32" (Get (w_d w) "value"))) as Hp.
  { unfold buildPatch, patch_value. by rewrite Hm, Hch, Get_value. }
  split; [done|]. by apply Update_panics.
Qed.

(** * Further properties *)

(** ** Read *)

Lemma Read_unfold w :
  resourceKubernetesPriorityClassRead w =
  match store_Get (Id (w_d w)) (w_store w) with
  | (Err e, s') => (Ret (Some e), with_store s' (logged (CallGet (Id (w_d w))) w))
  | (Ok pc, s') =>
      ((flatten pc (w_d w)).1,
       with_d (flatten pc (w_d w)).2 (with_store s' (logged (CallGet (Id (w_d w))) w)))
  end.
Proof.
  unfold resourceKubernetesPriorityClassRead. run.
  destruct (store_Get _ _) as [[pc|e] s']; tidy; [|done].
  by destruct (flatten pc (w_d w)).
Qed.

(** X7: Read hands back any error of the store's Get as it is, a 404 status
    error like any other, and then has changed nothing in the resource
    data: the fields and the Local ID are as they were. *)
Theorem Read_store_error_untouched w e s' :
  store_Get (Id (w_d w)) (w_store w) = (Err e, s') →
  ∃ w', resourceKubernetesPriorityClassRead w = (Ret (Some e), w') ∧
        w_d w' = w_d w ∧
        w_log w' = (w_log w ++ [CallGet (Id (w_d w))])%list.
Proof. intros Hget. rewrite Read_unfold, Hget. by eexists. Qed.

(** X8: when the store's Get succeeds and the object flattens, Read returns
    no error, and the resource data then holds the value, description
    and global_default of the object read, the value as the [int] the
    schema gives it, and under metadata what the metadata flattener made
    of it.  The Local ID and the prior snapshot are as they were. *)
Theorem Read_writes_store_values w pc s' pc' m :
  store_Get (Id (w_d w)) (w_store w) = (Ok pc, s') →
  reinject_generate_name pc (w_d w) = Ret pc' →
  flattenMetadata (Meta pc') (w_d w) = Ret m →
  ∃ w', resourceKubernetesPriorityClassRead w = (Ret None, w') ∧
        Get (w_d w') "value" = VInt (Value pc) ∧
        Get (w_d w') "description" = VString (Description pc) ∧
        Get (w_d w') "global_default" = VBool (GlobalDefault pc) ∧
        Get (w_d w') "metadata" = VList m ∧
        rd_current (w_d w')
        = mkFlatModel m (Value pc) (Description pc) (GlobalDefault pc) ∧
        Id (w_d w') = Id (w_d w) ∧
        rd_prior (w_d w') = rd_prior (w_d w) ∧
        w_store w' = s'.
Proof.
  intros Hget Hre Hfl.
  destruct (reinject_generate_name_Ret _ _ _ Hre) as (Hv & Hd & Hg).
  exists (with_d (written_back m pc' (w_d w))
            (with_store s' (logged (CallGet (Id (w_d w))) w))).
  split. { by rewrite Read_unfold, Hget, flatten_unfold, Hre, Hfl. }
  tidy. rewrite Get_written_back_value, Get_written_back_description,
    Get_written_back_global_default, Get_written_back_metadata.
  unfold written_back. cbn [rd_current rd_prior rd_id]. rewrite Hv, Hd, Hg.
  by repeat split.
Qed.

(** X9: the generate_name correction changes nothing but the generate_name,
    and that only when the object read has none: an object that carries
    a generate_name goes to the flattener as it was read, whatever the
    resource data holds. *)
Theorem reinject_generate_name_only_fills_empty pc d :
  (GenerateName (Meta pc) ≠ "" → reinject_generate_name pc d = Ret pc) ∧
  (∀ pc', reinject_generate_name pc d = Ret pc' →
     same_but_generate_name (Meta pc') (Meta pc) ∧
     Value pc' = Value pc ∧ Description pc' = Description pc ∧
     GlobalDefault pc' = GlobalDefault pc ∧
     (GenerateName (Meta pc') = GenerateName (Meta pc) ∨
      GenerateName (Meta pc) = "" ∧
      Get d "metadata.0.generate_name" = VString (GenerateName (Meta pc')) ∧
      GenerateName (Meta pc') ≠ "")).
Proof.
  unfold reinject_generate_name, GetOk. split.
  - intros Hne. by apply String.eqb_neq in Hne as ->.
  - intros pc'. destruct (String.eqb_spec (GenerateName (Meta pc)) "") as [He|Hne].
    + destruct (is_zero (Get d "metadata.0.generate_name")) eqn:Hz; cbn.
      { intros [= <-]. repeat split; by left. }
      destruct (Get d "metadata.0.generate_name") as [| | | |g| |] eqn:Hg;
        try discriminate. cbn. intros [= <-]. cbn.
      repeat split. right. repeat split; [done|].
      cbn in Hz. by apply String.eqb_neq in Hz.
    + intros [= <-]. repeat split; by left.
Qed.

(** Writing the same object back twice is writing it back once. *)
Lemma written_back_twice m pc d :
  written_back m pc (written_back m pc d) = written_back m pc d.
Proof. reflexivity. Qed.

(** X10: flattening is idempotent where the helpers are: when the
    correction and the metadata flattener answer on the flattened
    resource data as they did before, flattening the same object once
    more changes nothing. *)
Theorem flatten_twice pc d pc' m d1 :
  reinject_generate_name pc d = Ret pc' →
  flattenMetadata (Meta pc') d = Ret m →
  flatten pc d = (Ret None, d1) →
  reinject_generate_name pc d1 = Ret pc' →
  flattenMetadata (Meta pc') d1 = Ret m →
  flatten pc d1 = (Ret None, d1).
Proof.
  intros Hre Hfl H1 Hre1 Hfl1.
  rewrite flatten_unfold, Hre, Hfl in H1. injection H1 as <-.
  rewrite flatten_unfold, Hre1, Hfl1. by rewrite written_back_twice.
Qed.

(** ** Create *)

Lemma count_of_app p l1 l2 :
  count_of p (l1 ++ l2) = (count_of p l1 + count_of p l2)%nat.
Proof. unfold count_of. by rewrite List.filter_app, List.length_app. Qed.

(** Reads and pauses are no mutating calls. *)
Lemma polling_no_mutation l :
  Forall polling_event l →
  count_of is_create l = 0%nat ∧ count_of is_patch l = 0%nat ∧ count_of is_delete l = 0%nat.
Proof.
  induction 1 as [|e l He _ IH]; [done|].
  destruct e; try done; apply IH.
Qed.


(** What lines 66-90 add to the log: at most one Create call, and
    besides it the Local ID assignment, reads and pauses. *)
Lemma create_draft_log pc w :
  ∃ rest,
    w_log (create_draft pc w).2 = (w_log w ++ rest)%list ∧
    (count_of is_create rest ≤ 1)%nat ∧
    count_of is_patch rest = 0%nat ∧
    count_of is_delete rest = 0%nat.
Proof.
  rewrite create_draft_unfold.
  destruct (store_Create pc (w_store w)) as [[out|err] s1];
    [|exists [CallCreate pc]; repeat split; cbn; lia].
  match goal with
  | |- context [Retry ?t ?f ?w0] =>
      destruct (Retry_polled out pc t w0) as (_ & rest & Hlog & Hpoll & _);
      destruct (Retry t f w0) as [r1 w1]
  end.
  revert Hlog. tidy. rewrite <- app_assoc. intros Hlog.
  assert (∃ rest', w_log (match r1 with
                          | Ret (Some e) => (Ret (Some e), w1)
                          | Ret None => resourceKubernetesPriorityClassRead w1
                          | Panic p => (Panic p, w1)
                          end).2 = (w_log w1 ++ rest')%list ∧ Forall polling_event rest')
    as (rest' & Hlog' & Hpoll').
  { destruct r1 as [[e|]|p]; try (exists []; by rewrite app_nil_r).
    exists [CallGet (Id (w_d w1))]. split; [apply Read_log|by apply Forall_singleton]. }
  exists ([CallCreate pc] ++ [DidSetId (buildId (Meta out))] ++ rest ++ rest')%list.
  split. { rewrite Hlog', Hlog. by rewrite <- !app_assoc. }
  destruct (polling_no_mutation _ Hpoll) as (Hc & Hp & Hd).
  destruct (polling_no_mutation _ Hpoll') as (Hc' & Hp' & Hd').
  rewrite !count_of_app, Hc, Hc', Hp, Hp', Hd, Hd'. cbn. repeat split; lia.
Qed.

(** X1: whatever the store answers and however Create ends, it calls the
    store's Create at most once and never calls Patch or Delete: a
    failed creation is not tried again. *)
Theorem Create_mutates_store_at_most_once w :
  ∃ rest,
    w_log (resourceKubernetesPriorityClassCreate w).2 = (w_log w ++ rest)%list ∧
    (count_of is_create rest ≤ 1)%nat ∧
    count_of is_patch rest = 0%nat ∧
    count_of is_delete rest = 0%nat.
Proof.
  rewrite Create_is_expand_then_draft.
  destruct (expand (w_d w)) as [pc|p]; [apply create_draft_log|].
  exists []. rewrite app_nil_r. repeat split; cbn; lia.
Qed.

(** X18: lines 66-90 of Create, run on any draft, call the store's
    Create exactly once, as their first step, and never call Patch or
    Delete, whatever the store answers: a failed creation is not tried
    again, and the poller only reads. *)
Theorem create_draft_creates_once pc w :
  ∃ rest,
    w_log (create_draft pc w).2 = (w_log w ++ CallCreate pc :: rest)%list ∧
    count_of is_create rest = 0%nat ∧
    count_of is_patch rest = 0%nat ∧
    count_of is_delete rest = 0%nat.
Proof.
  rewrite create_draft_unfold.
  destruct (store_Create pc (w_store w)) as [[out|err] s1];
    [|exists []; repeat split].
  match goal with
  | |- context [Retry ?t ?f ?w0] =>
      destruct (Retry_polled out pc t w0) as (_ & rest & Hlog & Hpoll & _);
      destruct (Retry t f w0) as [r1 w1]
  end.
  revert Hlog. tidy. rewrite <- app_assoc. intros Hlog.
  assert (∃ rest', w_log (match r1 with
                          | Ret (Some e) => (Ret (Some e), w1)
                          | Ret None => resourceKubernetesPriorityClassRead w1
                          | Panic p => (Panic p, w1)
                          end).2 = (w_log w1 ++ rest')%list ∧ Forall polling_event rest')
    as (rest' & Hlog' & Hpoll').
  { destruct r1 as [[e|]|p]; try (exists []; by rewrite app_nil_r).
    exists [CallGet (Id (w_d w1))]. split; [apply Read_log|by apply Forall_singleton]. }
  exists ([DidSetId (buildId (Meta out))] ++ rest ++ rest')%list.
  split. { rewrite Hlog', Hlog. by rewrite <- !app_assoc. }
  destruct (polling_no_mutation _ Hpoll) as (Hc & Hp & Hd).
  destruct (polling_no_mutation _ Hpoll') as (Hc' & Hp' & Hd').
  rewrite !count_of_app, Hc, Hc', Hp, Hp', Hd, Hd'. by cbn.
Qed.

(** X2: when the store's Create fails, lines 66-90 of Create, run on any
    draft, return the error wrapped in Create's own message and have
    done nothing else: the resource data, the Local ID included, is as
    it was, and no read was made. *)
Theorem Create_store_error_leaves_no_id w pc err s' :
  store_Create pc (w_store w) = (Err err, s') →
  ∃ w', create_draft pc w
        = (Ret (Some (Errorf "Failed to create priority class: %s" [ArgError err])), w') ∧
        w_d w' = w_d w ∧
        w_log w' = (w_log w ++ [CallCreate pc])%list.
Proof. intros Hcreate. rewrite create_draft_unfold, Hcreate. by eexists. Qed.

(** X3: when the first read of the poller fails, lines 66-90 of Create,
    run on any draft, return the store's error as it is, without a pause
    and without the final Read; the Local ID is the one built from the
    created object, and the fields of the resource data are as they
    were. *)
Theorem Create_poll_error_keeps_id w pc out s1 e s2 :
  store_Create pc (w_store w) = (Ok out, s1) →
  store_Get (Name (Meta out)) s1 = (Err e, s2) →
  ∃ w', create_draft pc w = (Ret (Some e), w') ∧
        Id (w_d w') = buildId (Meta out) ∧
        rd_current (w_d w') = rd_current (w_d w) ∧
        w_log w' = (w_log w ++ [CallCreate pc; DidSetId (buildId (Meta out));
                                CallGet (Name (Meta out))])%list ∧
        w_now w' = w_now w.
Proof.
  intros Hcreate Hget. rewrite create_draft_unfold, Hcreate.
  unfold Retry. run. rewrite retry_loop_unfold, created_matches_unfold. tidy.
  rewrite Hget. eexists. split; [reflexivity|]. tidy.
  repeat split. by rewrite <- !app_assoc.
Qed.

(** X4: the whole of lines 66-90 of Create when they go through, on any
    draft: the draft is created, the first read of the poller shows the
    submitted value, and the final Read finds the object.  They then
    return no error after exactly these three store calls and no pause,
    the Local ID is the one built from the created object, and the
    resource data holds what the final Read found, not what was
    submitted, the value as an [int]. *)
Theorem Create_success_path w pc out s1 c s2 pc2 s3 pc2' m :
  let id := buildId (Meta out) in
  store_Create pc (w_store w) = (Ok out, s1) →
  store_Get (Name (Meta out)) s1 = (Ok c, s2) →
  Value c = Value pc →
  store_Get id s2 = (Ok pc2, s3) →
  reinject_generate_name pc2 (SetId id (w_d w)) = Ret pc2' →
  flattenMetadata (Meta pc2') (SetId id (w_d w)) = Ret m →
  ∃ w', create_draft pc w = (Ret None, w') ∧
        w_d w' = written_back m pc2' (SetId id (w_d w)) ∧
        Get (w_d w') "value" = VInt (Value pc2) ∧
        Id (w_d w') = id ∧
        w_store w' = s3 ∧
        w_log w' = (w_log w ++ [CallCreate pc; DidSetId id;
                                CallGet (Name (Meta out)); CallGet id])%list ∧
        w_now w' = w_now w.
Proof.
  intros id Hcreate Hpoll Hval Hget Hre Hfl.
  destruct (reinject_generate_name_Ret _ _ _ Hre) as (Hv & _).
  rewrite create_draft_unfold, Hcreate.
  unfold Retry. run. rewrite retry_loop_unfold, created_matches_unfold. tidy.
  rewrite Hpoll. apply Z.eqb_eq in Hval as ->.
  rewrite Read_unfold. tidy.
  change (Id (SetId (buildId (Meta out)) (w_d w))) with id. fold id.
  rewrite Hget, flatten_unfold, Hre, Hfl.
  eexists. split; [reflexivity|]. tidy.
  rewrite Get_written_back_value, Hv.
  repeat split. by rewrite <- !app_assoc.
Qed.




(** ** Update *)

Lemma Update_unfold w :
  resourceKubernetesPriorityClassUpdate w =
  match buildPatch (w_d w) with
  | Panic p => (Panic p, w)
  | Ret ops =>
      match MarshalJSON ops with
      | Err err =>
          (Ret (Some (Errorf "Failed to marshal update operations: %s" [ArgError err])), w)
      | Ok data =>
          match store_Patch (Id (w_d w)) JSONPatchType data (w_store w) with
          | (Err err, s') =>
              (Ret (Some (Errorf "Failed to update priority class: %s" [ArgError err])),
               with_store s' (logged (CallPatch (Id (w_d w)) JSONPatchType data) w))
          | (Ok out, s') =>
              resourceKubernetesPriorityClassRead
                (logged (DidSetId (buildId (Meta out)))
                   (with_d (SetId (buildId (Meta out)) (w_d w))
                      (with_store s' (logged (CallPatch (Id (w_d w)) JSONPatchType data) w))))
          end
      end
  end.
Proof.
  unfold resourceKubernetesPriorityClassUpdate. run.
  destruct (buildPatch (w_d w)) as [ops|p]; [|done].
  destruct (MarshalJSON ops) as [data|err]; [|done].
  by destruct (store_Patch _ _ _ _) as [[out|err] s'].
Qed.

(** X11: the operations Update adds itself are replace operations only,
    never an add or a remove, at most one for each of the value, the
    description and the global_default path and in that order; the
    operations of the metadata routine come first and are kept as they
    are. *)
Theorem buildPatch_appends_replaces d mops ops :
  patchMetadata "metadata.0." "/metadata/" d = Ret mops →
  buildPatch d = Ret ops →
  ∃ tail, ops = (mops ++ tail)%list ∧
          Forall (λ o, is_replace o = true) tail ∧
          map op_path tail `sublist_of` scalar_paths.
Proof.
  intros Hm. unfold buildPatch, patch_value, patch_description, patch_global_default.
  rewrite Hm. cbn.
  destruct (HasChange d "value");
    [destruct (Get d "value"); cbn; try discriminate|];
    (destruct (HasChange d "description");
     [destruct (Get d "description"); cbn; try discriminate|]);
    (destruct (HasChange d "global_default");
     [destruct (Get d "global_default"); cbn; try discriminate|]);
    intros [= <-]; rewrite <- ?app_assoc; cbn;
    (eexists; split; [try reflexivity; by rewrite app_nil_r|]);
    (split; [by repeat constructor|]);
    unfold scalar_paths; cbn;
    repeat first [apply sublist_skip | apply sublist_cons | apply sublist_nil].
Qed.

(** X13: a failure of Update before the object was patched leaves the
    resource data, the Local ID included, as it was: when marshalling
    fails no store call is made at all, and when the store's Patch fails
    that call is the only one; either error comes back wrapped in
    Update's own message. *)
Theorem Update_failure_untouched w ops :
  buildPatch (w_d w) = Ret ops →
  (∀ err, MarshalJSON ops = Err err →
     resourceKubernetesPriorityClassUpdate w
     = (Ret (Some (Errorf "Failed to marshal update operations: %s" [ArgError err])), w)) ∧
  (∀ data err s', MarshalJSON ops = Ok data →
     store_Patch (Id (w_d w)) JSONPatchType data (w_store w) = (Err err, s') →
     ∃ w', resourceKubernetesPriorityClassUpdate w
           = (Ret (Some (Errorf "Failed to update priority class: %s" [ArgError err])), w') ∧
           w_d w' = w_d w ∧
           w_log w' = (w_log w ++ [CallPatch (Id (w_d w)) JSONPatchType data])%list).
Proof.
  intros Hops. split.
  - intros err Hj. by rewrite Update_unfold, Hops, Hj.
  - intros data err s' Hj Hpatch. rewrite Update_unfold, Hops, Hj, Hpatch. by eexists.
Qed.

(** X14: when the store's Patch succeeds, the patch was addressed to the
    Local ID as it was, the Local ID is then built anew from the object
    the store returned, and the Read that follows is addressed to the
    new Local ID.  Should that read fail, Update returns the store's
    error as it is, with the new Local ID already in place and the
    fields of the resource data as they were. *)
Theorem Update_patch_then_read_by_new_id w ops data out s1 :
  buildPatch (w_d w) = Ret ops →
  MarshalJSON ops = Ok data →
  store_Patch (Id (w_d w)) JSONPatchType data (w_store w) = (Ok out, s1) →
  ∃ r w',
    resourceKubernetesPriorityClassUpdate w = (r, w') ∧
    Id (w_d w') = buildId (Meta out) ∧
    w_log w' = (w_log w ++ [CallPatch (Id (w_d w)) JSONPatchType data;
                            DidSetId (buildId (Meta out));
                            CallGet (buildId (Meta out))])%list ∧
    (∀ e s2, store_Get (buildId (Meta out)) s1 = (Err e, s2) →
       r = Ret (Some e) ∧ rd_current (w_d w') = rd_current (w_d w)).
Proof.
  intros Hops Hj Hpatch. rewrite Update_unfold, Hops, Hj, Hpatch.
  match goal with
  | |- context [resourceKubernetesPriorityClassRead ?w0] =>
      pose proof (Read_log w0) as Hlog; pose proof (Read_id w0) as Hid;
      pose proof (Read_unfold w0) as Hun;
      destruct (resourceKubernetesPriorityClassRead w0) as [r w']
  end.
  revert Hlog Hid Hun. tidy. intros Hlog Hid Hun.
  exists r, w'. split; [done|]. split; [done|].
  split; [by rewrite Hlog, <- !app_assoc|].
  intros e s2 Hget.
  change (Id (SetId (buildId (Meta out)) (w_d w))) with (buildId (Meta out)) in Hun.
  rewrite Hget in Hun. by injection Hun as -> ->.
Qed.

(** X15: whatever the store answers and however Update ends, it calls the
    store's Patch at most once, reads at most once, and never calls
    Create or Delete: a failed patch is not tried again. *)
Theorem Update_mutates_store_at_most_once w :
  ∃ rest,
    w_log (resourceKubernetesPriorityClassUpdate w).2 = (w_log w ++ rest)%list ∧
    (count_of is_patch rest ≤ 1)%nat ∧
    (reads rest ≤ 1)%nat ∧
    count_of is_create rest = 0%nat ∧
    count_of is_delete rest = 0%nat.
Proof.
  rewrite Update_unfold.
  destruct (buildPatch (w_d w)) as [ops|p];
    [|exists []; rewrite app_nil_r; repeat split; cbn; lia].
  destruct (MarshalJSON ops) as [data|err];
    [|exists []; rewrite app_nil_r; repeat split; cbn; lia].
  destruct (store_Patch _ _ _ _) as [[out|err] s'];
    [|eexists [_]; repeat split; cbn; lia].
  rewrite Read_log. tidy.
  eexists [_; _; _]. split; [by rewrite <- !app_assoc|].
  repeat split; cbn; lia.
Qed.

(** X12: Update looks at the dynamic type of a field only when the field has
    changed: given the operations of the metadata routine, the patch is
    built exactly when every changed field among value, description and
    global_default holds the type asserted on it (int32, string, and
    string again), and a field that has not changed may hold anything. *)
Theorem buildPatch_returns_iff d mops :
  patchMetadata "metadata.0." "/metadata/" d = Ret mops →
  (∃ ops, buildPatch d = Ret ops) ↔
  (HasChange d "value" = true → holds_int32 (Get d "value") = true) ∧
  (HasChange d "description" = true → holds_string (Get d "description") = true) ∧
  (HasChange d "global_default" = true → holds_string (Get d "global_default") = true).
Proof.
  intros Hm. unfold buildPatch, patch_value, patch_description, patch_global_default.
  rewrite Hm. cbn.
  destruct (HasChange d "value"); [destruct (Get d "value")|];
    (destruct (HasChange d "description"); [destruct (Get d "description")|]);
    (destruct (HasChange d "global_default"); [destruct (Get d "global_default")|]);
    cbn;
    (split; [intros [ops Hops]; try discriminate; by repeat split
            |intros (H1 & H2 & H3);
             try (by specialize (H1 eq_refl)); try (by specialize (H2 eq_refl));
             try (by specialize (H3 eq_refl)); by eexists]).
Qed.

(** X19: what Update can patch.  Given the operations of the metadata
    routine, the patch is built exactly when neither the value nor
    global_default has changed, and it is then the metadata operations
    followed by one replace operation at the description path when the
    description has changed, and by nothing otherwise. *)
Theorem buildPatch_description_and_metadata_only d mops :
  patchMetadata "metadata.0." "/metadata/" d = Ret mops →
  ((∃ ops, buildPatch d = Ret ops) ↔
   HasChange d "value" = false ∧ HasChange d "global_default" = false) ∧
  (∀ ops, buildPatch d = Ret ops →
     ops = (mops ++ if HasChange d "description"
                    then [ReplaceOperation "/description"
                            (VString (fm_description (rd_current d)))]
                    else [])%list).
Proof.
  intros Hm. unfold buildPatch, patch_value, patch_description, patch_global_default.
  rewrite Hm, Get_value, Get_description, Get_global_default. cbn.
  destruct (HasChange d "value"), (HasChange d "description"),
    (HasChange d "global_default"); cbn;
    (split; [split; [intros [ops Hops]; try discriminate; by split
                    |intros [H1 H2]; try discriminate; by eexists]
            |intros ops [= <-]; by rewrite ?app_nil_r]).
Qed.

(** ** Across the entry points *)

(** X16: Exists and Read put the same question to the store: Exists answers
    false exactly when Read, run in its place, returns a 404 status
    error. *)
Theorem Exists_false_iff_Read_not_found w :
  (resourceKubernetesPriorityClassExists w).1 = Ret (false, None) ↔
  ∃ msg, (resourceKubernetesPriorityClassRead w).1 = Ret (Some (StatusError 404 msg)).
Proof.
  rewrite Read_unfold. unfold resourceKubernetesPriorityClassExists. run.
  destruct (store_Get _ _) as [[pc|e] s']; tidy.
  - split; [discriminate|]. intros [msg Hr]. revert Hr.
    rewrite flatten_unfold. destruct (reinject_generate_name _ _); [|discriminate].
    by destruct (flattenMetadata _ _).
  - destruct e as [code msg| |]; cbn;
      try (split; [discriminate|by intros [? [=]]]).
    destruct (Z.eqb_spec code 404) as [->|Hne]; cbn.
    + split; [by exists msg|done].
    + split; [discriminate|]. by intros [? [= ? ?]].
Qed.

(** X17: the Local ID changes only after a mutating store call has
    succeeded: Read and Exists never change it; Create leaves it as it
    was unless the store's Create succeeded, and then it is the one
    built from the created object; Update leaves it as it was unless the
    store's Patch succeeded, and then it is the one built from the
    patched object; Delete leaves it as it was unless the store's Delete
    succeeded, and then it is empty. *)
Theorem Local_ID_changes_only_on_store_success w :
  Id (w_d (resourceKubernetesPriorityClassRead w).2) = Id (w_d w) ∧
  Id (w_d (resourceKubernetesPriorityClassExists w).2) = Id (w_d w) ∧
  (Id (w_d (resourceKubernetesPriorityClassCreate w).2) = Id (w_d w) ∨
   ∃ pc out s1,
     expand (w_d w) = Ret pc ∧ store_Create pc (w_store w) = (Ok out, s1) ∧
     Id (w_d (resourceKubernetesPriorityClassCreate w).2) = buildId (Meta out)) ∧
  (Id (w_d (resourceKubernetesPriorityClassUpdate w).2) = Id (w_d w) ∨
   ∃ ops data out s1,
     buildPatch (w_d w) = Ret ops ∧ MarshalJSON ops = Ok data ∧
     store_Patch (Id (w_d w)) JSONPatchType data (w_store w) = (Ok out, s1) ∧
     Id (w_d (resourceKubernetesPriorityClassUpdate w).2) = buildId (Meta out)) ∧
  (Id (w_d (resourceKubernetesPriorityClassDelete w).2) = Id (w_d w) ∨
   ∃ s1, store_Delete (Id (w_d w)) (w_store w) = (None, s1) ∧
         Id (w_d (resourceKubernetesPriorityClassDelete w).2) = "").
Proof.
  split; [apply Read_id|]. split.
  { unfold resourceKubernetesPriorityClassExists. run.
    destruct (store_Get _ _) as [[pc|e] s']; tidy; [done|].
    by destruct (is_not_found e). }
  split.
  { rewrite Create_unfold.
    destruct (expand (w_d w)) as [pc|p] eqn:Hexp; [|by left].
    destruct (store_Create pc (w_store w)) as [[out|err] s1] eqn:Hcreate; [|by left].
    right. exists pc, out, s1. split; [done|]. split; [done|].
    match goal with
    | |- context [Retry ?t ?f ?w0] =>
        destruct (Retry_polled out pc t w0) as (Hd & _);
        destruct (Retry t f w0) as [r1 w1]
    end.
    revert Hd. tidy. intros Hd.
    destruct r1 as [[e|]|p]; tidy; rewrite ?Read_id; by rewrite Hd. }
  split.
  { rewrite Update_unfold.
    destruct (buildPatch (w_d w)) as [ops|p] eqn:Hops; [|by left].
    destruct (MarshalJSON ops) as [data|err] eqn:Hj; [|by left].
    destruct (store_Patch _ _ _ _) as [[out|err] s1] eqn:Hpatch; [|by left].
    right. exists ops, data, out, s1. by rewrite Read_id. }
  unfold resourceKubernetesPriorityClassDelete. run.
  destruct (store_Delete _ _) as [[e|] s1] eqn:Hdel; tidy; [by left|].
  right. by exists s1.
Qed.

End Properties.

Section Witnesses.
Import (hints) SpecHelpers.
Import Scripted Samples.

Lemma Exists_maps_get_result_witness :
  resourceKubernetesPriorityClassExists (world d_same absent)
  = (Ret (false, None), with_store absent (logged (CallGet "high") (world d_same absent))) ∧
  resourceKubernetesPriorityClassExists (world d_same unreachable)
  = (Ret (true, Some (OpaqueError "connection refused")),
     with_store unreachable (logged (CallGet "high") (world d_same unreachable))) ∧
  resourceKubernetesPriorityClassExists (world d_same present)
  = (Ret (true, None), with_store present (logged (CallGet "high") (world d_same present))).
Proof.
  split; [|split].
  - apply (proj1 (Exists_maps_get_result (world d_same absent)) "not found"). reflexivity.
  - apply (proj1 (proj2 (Exists_maps_get_result (world d_same unreachable)))); reflexivity.
  - apply (proj2 (proj2 (Exists_maps_get_result (world d_same present))) high_object).
    reflexivity.
Defined.

(** C2, as stated, fails: the store reports not-found and Delete returns
    that error instead of succeeding. *)
Lemma Delete_not_found_is_an_error :
  store_Delete "high" absent = (Some not_found, absent) ∧
  is_not_found not_found = true ∧
  fst (resourceKubernetesPriorityClassDelete (world d_same absent)) = Ret (Some not_found) ∧
  fst (resourceKubernetesPriorityClassDelete (world d_same absent)) ≠ Ret None.
Proof. repeat split; try reflexivity. vm_compute. discriminate. Qed.

Lemma Delete_returns_store_answer_witness :
  fst (resourceKubernetesPriorityClassDelete (world d_same absent)) = Ret (Some not_found) ∧
  ∃ w', resourceKubernetesPriorityClassDelete (world d_same present) = (Ret None, w') ∧
        Id (w_d w') = "" ∧
        w_log w' = [CallDelete "high"; DidSetId ""].
Proof.
  split.
  - rewrite (proj1 (Delete_returns_store_answer (world d_same absent)) not_found absent);
      reflexivity.
  - apply (proj2 (Delete_returns_store_answer (world d_same present)) present). reflexivity.
Defined.

Lemma d_same_unchanged : unchanged d_same.
Proof. by apply same_snapshot_unchanged. Qed.

(** C1, as stated, fails: nothing differs, the Patch Document is empty,
    and Update still calls the store twice, Patch and then Get. *)
Lemma Update_unchanged_still_calls_store :
  unchanged d_same ∧
  buildPatch d_same = Ret [] ∧
  store_calls (w_log (resourceKubernetesPriorityClassUpdate (world d_same present)).2)
  = [CallPatch "high" JSONPatchType "[]"; CallGet "high"].
Proof. split; [apply d_same_unchanged|]. split; reflexivity. Qed.

Lemma Update_sends_empty_patch_witness :
  ∃ r w', resourceKubernetesPriorityClassUpdate (world d_same present) = (r, w') ∧
          w_log w' = [CallPatch "high" JSONPatchType "[]"; DidSetId "high"; CallGet "high"].
Proof.
  destruct (Update_sends_empty_patch (world d_same present) "[]") as (_ & _ & Hok).
  - apply d_same_unchanged.
  - reflexivity.
  - reflexivity.
  - apply (Hok high_object present). reflexivity.
Defined.

Lemma Create_rejects_malformed_witness :
  ∃ p, expand d_int = Panic p ∧
       resourceKubernetesPriorityClassCreate (world d_int present) = (Panic p, world d_int present).
Proof. apply (Create_rejects_malformed (world d_int present)). reflexivity. Defined.

(** C4, as stated, fails: global_default changed from false to true, and
    Update does not carry on: it panics on the string assertion before
    any store call. *)
Lemma Update_global_default_not_dropped :
  HasChange d_global "global_default" = true ∧
  Get d_global "global_default" = VBool true ∧
  resourceKubernetesPriorityClassUpdate (world d_global present)
  = (Panic (TypeAssertion "string" (VBool true)), world d_global present) ∧
  ∀ r w', resourceKubernetesPriorityClassUpdate (world d_global present) ≠ (Ret r, w').
Proof.
  assert (resourceKubernetesPriorityClassUpdate (world d_global present)
          = (Panic (TypeAssertion "string" (VBool true)), world d_global present)) as Heq
    by (apply Update_panics; reflexivity).
  split; [reflexivity|]. split; [reflexivity|]. split; [exact Heq|].
  intros r w'. rewrite Heq. discriminate.
Qed.

Lemma Update_global_default_mismatch_panics_witness :
  (∀ ops, patch_global_default d_global ops = Panic (TypeAssertion "string" (VBool true))) ∧
  ∃ p, resourceKubernetesPriorityClassUpdate (world d_global present)
       = (Panic p, world d_global present) ∧
       (∀ ops, (val o1 <- patchMetadata "metadata.0." "/metadata/" d_global;
                val o2 <- patch_value d_global o1;
                patch_description d_global o2) = Ret ops →
               p = TypeAssertion "string" (VBool true)).
Proof.
  apply (Update_global_default_mismatch_panics (world d_global present) true); reflexivity.
Defined.

Lemma Read_reinjects_generate_name_witness :
  reinject_generate_name generated_object d_generated
  = Ret (set_Meta (set_GenerateName "prio-" (Meta generated_object)) generated_object) ∧
  ∃ v w', flattenMetadata (set_GenerateName "prio-" (Meta generated_object)) d_generated = Ret v ∧
          resourceKubernetesPriorityClassRead (world d_generated omitting) = (Ret None, w') ∧
          Get (w_d w') "metadata" = v ∧
          Get (w_d w') "metadata.0.generate_name" = Get d_generated "metadata.0.generate_name".
Proof.
  apply (Read_reinjects_generate_name (world d_generated omitting) generated_object omitting
           "prio-").
  - reflexivity.
  - reflexivity.
  - reflexivity.
  - discriminate.
  - intros meta _. eexists. split; reflexivity.
Defined.


Lemma expand_fails_on_every_flat_model_witness :
  expand d_int = Panic (TypeAssertion "int32" (VInt 1000000)) ∧
  ∃ p, expand d_int = Panic p ∧
       resourceKubernetesPriorityClassCreate (world d_int present)
       = (Panic p, world d_int present).
Proof.
  split.
  - exact (proj2 (proj2 (expand_fails_on_every_flat_model (world d_int present)))
             (mkObjectMeta "high" "" "" [("tier", "gold")] [] "" "") eq_refl).
  - exact (proj1 (proj2 (expand_fails_on_every_flat_model (world d_int present)))).
Defined.

Lemma Update_changed_value_panics_witness :
  HasChange d_value "value" = true ∧
  buildPatch d_value = Panic (TypeAssertion "int32" (VInt 900000)) ∧
  resourceKubernetesPriorityClassUpdate (world d_value present)
  = (Panic (TypeAssertion "int32" (VInt 900000)), world d_value present).
Proof.
  split; [reflexivity|].
  exact (Update_changed_value_panics (world d_value present) [] eq_refl eq_refl).
Defined.

Lemma Retry_times_out_or_aborts_witness :
  (∃ c w', Retry (1 * Minute) (created_matches high_object high_draft) (world d_same lagging)
           = (Ret (Some (mismatch (Value c) 1000000)), w') ∧
           (0 + 1 * Minute ≤ w_now w' < 0 + 1 * Minute + 500)%Z ∧
           polled (Datatypes.S (max_polls (1 * Minute))) (world d_same lagging) w') ∧
  (∀ n dl, retry_loop n dl (created_matches high_object high_draft) (world d_same unreachable)
           = (Ret (Some (OpaqueError "connection refused")),
              with_store unreachable (logged (CallGet "high") (world d_same unreachable)))) ∧
  (∀ n dl, (0 < dl)%Z →
     retry_loop (Datatypes.S n) dl (created_matches high_object high_draft)
       (world d_same lagging)
     = retry_loop n dl (created_matches high_object high_draft)
         (advanced 500 (logged (Slept 500)
            (with_store lagging (logged (CallGet "high") (world d_same lagging)))))).
Proof.
  split; [|split].
  - assert (∀ s, s = lagging →
              ∃ c s', store_Get "high" s = (Ok c, s') ∧ Value c ≠ 1000000%Z ∧ s' = lagging)
      as Hnever.
    { intros s ->. exists stale_object, lagging. split; [reflexivity|].
      split; [discriminate|reflexivity]. }
    assert (0 ≤ 1 * Minute)%Z as Hpos by discriminate.
    exact (proj1 (Retry_times_out_or_aborts (world d_same lagging) high_object high_draft
                    (λ s, s = lagging) (1 * Minute)) Hpos eq_refl Hnever).
  - intros n dl.
    exact (proj1 (proj2 (Retry_times_out_or_aborts (world d_same unreachable) high_object
                           high_draft (λ _, True) 0))
             (OpaqueError "connection refused") unreachable eq_refl n dl).
  - intros n dl Hdl.
    assert (Value stale_object ≠ Value high_draft) as Hne by discriminate.
    exact (proj2 (proj2 (Retry_times_out_or_aborts (world d_same lagging) high_object
                           high_draft (λ _, True) 0))
             stale_object lagging eq_refl Hne n dl Hdl).
Defined.

(** *** Further properties at the samples *)

Lemma Read_store_error_untouched_witness :
  ∃ w', resourceKubernetesPriorityClassRead (world d_same absent)
        = (Ret (Some not_found), w') ∧
        w_d w' = d_same ∧
        w_log w' = [CallGet "high"].
Proof.
  exact (Read_store_error_untouched (world d_same absent) not_found absent eq_refl).
Defined.

Lemma Read_writes_store_values_witness :
  ∃ w', resourceKubernetesPriorityClassRead (world d_value present) = (Ret None, w') ∧
        Get (w_d w') "value" = VInt 1000000 ∧
        Id (w_d w') = "high".
Proof.
  edestruct (Read_writes_store_values (world d_value present) high_object present
               high_object)
    as (w' & Hread & Hvalue & _ & _ & _ & _ & Hid & _); [reflexivity..|].
  exists w'. split; [exact Hread|]. split; [exact Hvalue|exact Hid].
Defined.

Lemma reinject_generate_name_only_fills_empty_witness :
  reinject_generate_name named_object d_generated = Ret named_object ∧
  same_but_generate_name
    (Meta (set_Meta (set_GenerateName "prio-" (Meta generated_object)) generated_object))
    (Meta generated_object).
Proof.
  split.
  - apply (proj1 (reinject_generate_name_only_fills_empty named_object d_generated)).
    discriminate.
  - apply (proj2 (reinject_generate_name_only_fills_empty generated_object d_generated)
             (set_Meta (set_GenerateName "prio-" (Meta generated_object)) generated_object)).
    reflexivity.
Defined.

Lemma flatten_twice_witness :
  flatten high_object (flatten high_object d_value).2
  = (Ret None, (flatten high_object d_value).2).
Proof.
  apply (flatten_twice high_object d_value high_object
           [VMap [ ("annotations", VMap []);
                   ("generate_name", VString "");
                   ("labels", VMap [("tier", VString "gold")]);
                   ("name", VString "high");
                   ("namespace", VString "");
                   ("resource_version", VString "1");
                   ("uid", VString "uid-1") ]]); reflexivity.
Defined.

Lemma Create_store_error_leaves_no_id_witness :
  ∃ w', create_draft high_draft (world d_int unreachable)
        = (Ret (Some (Errorf "Failed to create priority class: %s"
                        [ArgError (OpaqueError "connection refused")])), w') ∧
        w_d w' = d_int ∧
        w_log w' = [CallCreate high_draft].
Proof.
  exact (Create_store_error_leaves_no_id (world d_int unreachable) high_draft
           (OpaqueError "connection refused") unreachable eq_refl).
Defined.

Lemma Create_poll_error_keeps_id_witness :
  ∃ w', create_draft high_draft (world d_int absent)
        = (Ret (Some not_found), w') ∧
        Id (w_d w') = "high" ∧
        rd_current (w_d w') = rd_current d_int ∧
        w_log w' = [CallCreate high_draft; DidSetId "high"; CallGet "high"] ∧
        w_now w' = 0%Z.
Proof.
  exact (Create_poll_error_keeps_id (world d_int absent) high_draft
           (assigned high_draft) absent not_found absent eq_refl eq_refl).
Defined.

Lemma Create_success_path_witness :
  ∃ w', create_draft high_draft (world d_int present) = (Ret None, w') ∧
        Get (w_d w') "value" = VInt 1000000 ∧
        Id (w_d w') = "high" ∧
        w_log w' = [CallCreate high_draft; DidSetId "high"; CallGet "high"; CallGet "high"] ∧
        w_now w' = 0%Z.
Proof.
  edestruct (Create_success_path (world d_int present) high_draft (assigned high_draft)
               present high_object present high_object present high_object)
    as (w' & Hrun & _ & Hvalue & Hid & _ & Hlog & Hnow); [reflexivity..|].
  exists w'. split; [exact Hrun|]. split; [exact Hvalue|].
  split; [exact Hid|]. split; [exact Hlog|exact Hnow].
Defined.


Lemma create_draft_creates_once_witness :
  ∃ rest,
    w_log (create_draft high_draft (world d_int present)).2
    = ([] ++ CallCreate high_draft :: rest)%list ∧
    count_of is_create rest = 0%nat.
Proof.
  destruct (create_draft_creates_once high_draft (world d_int present))
    as (rest & Hlog & Hc & _).
  exists rest. split; [exact Hlog|exact Hc].
Defined.

Lemma buildPatch_appends_replaces_witness :
  ∃ tail, [ReplaceOperation "/description" (VString "batch jobs")] = ([] ++ tail)%list ∧
          Forall (λ o, is_replace o = true) tail ∧
          map op_path tail `sublist_of` scalar_paths.
Proof.
  exact (buildPatch_appends_replaces d_description []
           [ReplaceOperation "/description" (VString "batch jobs")] eq_refl eq_refl).
Defined.

Lemma Update_failure_untouched_witness :
  resourceKubernetesPriorityClassUpdate (H := failing_marshal) (world d_description present)
  = (Ret (Some (Errorf "Failed to marshal update operations: %s"
                  [ArgError (OpaqueError "json: unsupported value")])),
     world d_description present) ∧
  ∃ w', resourceKubernetesPriorityClassUpdate (world d_description unreachable)
        = (Ret (Some (Errorf "Failed to update priority class: %s"
                        [ArgError (OpaqueError "connection refused")])), w') ∧
        w_d w' = d_description.
Proof.
  split.
  - exact (proj1 (Update_failure_untouched (H := failing_marshal) (world d_description present)
                    [ReplaceOperation "/description" (VString "batch jobs")] eq_refl)
             (OpaqueError "json: unsupported value") eq_refl).
  - assert (buildPatch (w_d (world d_description unreachable))
            = Ret [ReplaceOperation "/description" (VString "batch jobs")]) as Hops
      by reflexivity.
    edestruct (proj2 (Update_failure_untouched (world d_description unreachable) _ Hops))
      as (w' & Hrun & Hd & _); [reflexivity..|].
    exists w'. split; [exact Hrun|exact Hd].
Defined.

Lemma Update_patch_then_read_by_new_id_witness :
  ∃ r w', resourceKubernetesPriorityClassUpdate (world d_description present) = (r, w') ∧
          Id (w_d w') = "high".
Proof.
  edestruct (Update_patch_then_read_by_new_id (world d_description present)
               [ReplaceOperation "/description" (VString "batch jobs")])
    as (r & w' & Hrun & Hid & _); [reflexivity..|].
  exists r, w'. split; [exact Hrun|exact Hid].
Defined.

Lemma buildPatch_returns_iff_witness :
  (∃ ops, buildPatch d_description = Ret ops) ∧
  ¬ (HasChange d_value "value" = true → holds_int32 (Get d_value "value") = true) ∧
  ¬ (HasChange d_global "global_default" = true →
     holds_string (Get d_global "global_default") = true).
Proof.
  assert (patchMetadata "metadata.0." "/metadata/" d_description = Ret []) as Hd
    by reflexivity.
  assert (patchMetadata "metadata.0." "/metadata/" d_value = Ret []) as Hv by reflexivity.
  assert (patchMetadata "metadata.0." "/metadata/" d_global = Ret []) as Hg by reflexivity.
  split; [|split].
  - apply (proj2 (buildPatch_returns_iff d_description [] Hd)).
    split; [discriminate|]. split; [reflexivity|discriminate].
  - intros Hint.
    assert (∃ ops, buildPatch d_value = Ret ops) as [ops Hops]; [|discriminate Hops].
    apply (proj2 (buildPatch_returns_iff d_value [] Hv)).
    split; [exact Hint|]. split; discriminate.
  - intros Hstr.
    assert (∃ ops, buildPatch d_global = Ret ops) as [ops Hops]; [|discriminate Hops].
    apply (proj2 (buildPatch_returns_iff d_global [] Hg)).
    split; [discriminate|]. split; [discriminate|exact Hstr].
Defined.

Lemma buildPatch_description_and_metadata_only_witness :
  (∃ ops, buildPatch d_description = Ret ops) ∧
  buildPatch d_description = Ret [ReplaceOperation "/description" (VString "batch jobs")] ∧
  ¬ (∃ ops, buildPatch d_value = Ret ops) ∧
  ¬ (∃ ops, buildPatch d_global = Ret ops).
Proof.
  assert (patchMetadata "metadata.0." "/metadata/" d_description = Ret []) as Hd
    by reflexivity.
  assert (patchMetadata "metadata.0." "/metadata/" d_value = Ret []) as Hv by reflexivity.
  assert (patchMetadata "metadata.0." "/metadata/" d_global = Ret []) as Hg by reflexivity.
  split; [|split; [|split]].
  - apply (proj2 (proj1 (buildPatch_description_and_metadata_only d_description [] Hd))).
    split; reflexivity.
  - reflexivity.
  - intros Hops.
    destruct (proj1 (proj1 (buildPatch_description_and_metadata_only d_value [] Hv)) Hops)
      as [Hvalue _].
    discriminate Hvalue.
  - intros Hops.
    destruct (proj1 (proj1 (buildPatch_description_and_metadata_only d_global [] Hg)) Hops)
      as [_ Hglobal].
    discriminate Hglobal.
Defined.

Lemma Exists_false_iff_Read_not_found_witness :
  (resourceKubernetesPriorityClassExists (world d_same absent)).1 = Ret (false, None) ∧
  ∃ msg, (resourceKubernetesPriorityClassRead (world d_same absent)).1
         = Ret (Some (StatusError 404 msg)).
Proof.
  split.
  - apply (proj2 (Exists_false_iff_Read_not_found (world d_same absent))).
    by exists "not found".
  - apply (proj1 (Exists_false_iff_Read_not_found (world d_same absent))). reflexivity.
Defined.


End Witnesses.
